(** * Commit2Viz: the transcript fetcher, verified

    A shallow embedding of [zoom-transcript-fetcher/transcript_fetcher.py]:

    - the line-oriented parser inside [generate_meeting_summary_with_openai]
      that turns a model completion into title, summary and action items;
    - the permission probe [find_valid_parent_pages];
    - the Jira path [get_jira_user_by_name], [create_jira_ticket] and the
      ticket loop of [main];
    - the per-engineer log update [update_engineer_pages].

    Text is modelled by [string] read as 7-bit ASCII: on code points below
    128 the character predicates below agree with Python's [str] methods;
    codes from 128 up are carried along unchanged and are neither space,
    digit nor letter.  HTTP calls are modelled by typed handlers over an
    abstract remote state; every call leaves an event in a trace. *)

From Stdlib Require Import String Ascii List Bool Arith ZArith Lia.
From Stdlib Require Import DecimalString.
Import ListNotations.
Open Scope string_scope.
Open Scope list_scope.
Open Scope nat_scope.

(** ** Python string and list primitives *)

Module Py.

Inductive PyExn : Type :=
| IndexError (msg : string).

Inductive Result (A : Type) : Type :=
| Ok (a : A)
| Raise (e : PyExn).
Arguments Ok {A} a.
Arguments Raise {A} e.

Definition bind {A B} (m : Result A) (k : A -> Result B) : Result B :=
  match m with
  | Ok a => k a
  | Raise e => Raise e
  end.

Definition code (c : ascii) : nat := nat_of_ascii c.

(** [str.isspace] on ASCII: TAB..CR, FS..US and the blank. *)
Definition isspace (c : ascii) : bool :=
  ((9 <=? code c) && (code c <=? 13)) || ((28 <=? code c) && (code c <=? 32)).

(** [str.isdigit] on ASCII. *)
Definition isdigit (c : ascii) : bool :=
  (48 <=? code c) && (code c <=? 57).

Definition upper_char (c : ascii) : ascii :=
  if (97 <=? code c) && (code c <=? 122) then ascii_of_nat (code c - 32) else c.

(** [s.upper()] *)
Fixpoint upper (s : string) : string :=
  match s with
  | EmptyString => EmptyString
  | String c t => String (upper_char c) (upper t)
  end.

(** [c in chars] for a single character. *)
Fixpoint mem (c : ascii) (chars : string) : bool :=
  match chars with
  | EmptyString => false
  | String d t => Ascii.eqb c d || mem c t
  end.

Fixpoint lstrip_by (p : ascii -> bool) (s : string) : string :=
  match s with
  | EmptyString => EmptyString
  | String c t => if p c then lstrip_by p t else s
  end.

Fixpoint rstrip_by (p : ascii -> bool) (s : string) : string :=
  match s with
  | EmptyString => EmptyString
  | String c t =>
      match rstrip_by p t with
      | EmptyString => if p c then EmptyString else String c EmptyString
      | r => String c r
      end
  end.

(** [s.lstrip(chars)]: drops leading characters that belong to [chars]. *)
Definition lstrip_chars (chars s : string) : string :=
  lstrip_by (fun c => mem c chars) s.

(** [s.strip()] *)
Definition strip (s : string) : string :=
  rstrip_by isspace (lstrip_by isspace s).

(** [s.startswith(p)] *)
Definition startswith (s p : string) : bool := String.prefix p s.

(** [sub in s] *)
Fixpoint contains (sub s : string) : bool :=
  String.prefix sub s ||
  match s with
  | EmptyString => false
  | String _ t => contains sub t
  end.

(** [s[n:]] and [s[:n]] *)
Fixpoint drop (n : nat) (s : string) : string :=
  match n, s with
  | O, _ => s
  | S _, EmptyString => EmptyString
  | S k, String _ t => drop k t
  end.

Fixpoint take (n : nat) (s : string) : string :=
  match n, s with
  | O, _ => EmptyString
  | S _, EmptyString => EmptyString
  | S k, String c t => String c (take k t)
  end.

(** First occurrence of a non-empty separator: the text before it and the
    text after it. *)
Fixpoint cut (sep s : string) : option (string * string) :=
  if String.prefix sep s then Some (EmptyString, drop (String.length sep) s)
  else
    match s with
    | EmptyString => None
    | String c t =>
        match cut sep t with
        | Some (b, a) => Some (String c b, a)
        | None => None
        end
    end.

(** [s.split(sep, 1)] for a non-empty [sep]. *)
Definition split1 (sep s : string) : list string :=
  match cut sep s with
  | Some (b, a) => [b; a]
  | None => [s]
  end.

(** [s.split(c)] for a one-character separator. *)
Fixpoint split (c : ascii) (s : string) : list string :=
  match s with
  | EmptyString => [EmptyString]
  | String a t =>
      if Ascii.eqb a c then EmptyString :: split c t
      else
        match split c t with
        | h :: r => String a h :: r
        | [] => [String a EmptyString]
        end
  end.

(** [l[i]] *)
Definition item {A} (l : list A) (i : nat) : Result A :=
  match nth_error l i with
  | Some x => Ok x
  | None => Raise (IndexError "list index out of range")
  end.

(** [l[-1]] *)
Definition item_last {A} (l : list A) : Result A :=
  item (rev l) 0.

(** [s[i]] *)
Definition char_at (s : string) (i : nat) : Result ascii :=
  match String.get i s with
  | Some c => Ok c
  | None => Raise (IndexError "string index out of range")
  end.

(** Truth value of a string: non-empty. *)
Definition truthy (s : string) : bool :=
  match s with
  | EmptyString => false
  | String _ _ => true
  end.

(** [sep.join(l)] *)
Definition join (sep : string) (l : list string) : string := String.concat sep l.

Definition nl : string := String (ascii_of_nat 10) EmptyString.
Definition nl_char : ascii := ascii_of_nat 10.

(** [substr s t]: the text [t] occurs inside [s]. *)
Definition substr (s t : string) : Prop :=
  exists pre post, s = (pre ++ t ++ post)%string.

(** The text up to the first bar of [s], or all of [s] without a bar. *)
Definition first_segment (s : string) : string :=
  match cut "|" s with
  | Some (b, _) => b
  | None => s
  end.

End Py.

Notation "x <- m ;; k" := (Py.bind m (fun x => k))
  (at level 61, m at next level, right associativity).

(** ** The completion parser of [generate_meeting_summary_with_openai] *)

Module Parser.
Import Py.

Inductive section : Type := SecTitle | SecSummary | SecActions.

Definition section_eqb (a b : section) : bool :=
  match a, b with
  | SecTitle, SecTitle | SecSummary, SecSummary | SecActions, SecActions => true
  | _, _ => false
  end.

(** One entry of [action_items]: the dict with keys ['task'], ['assignee']. *)
Record ActionItem : Type := mkItem {
  task : string;
  assignee : option string
}.

(** The dict returned by [generate_meeting_summary_with_openai]. *)
Record MeetingRecord : Type := mkRecord {
  title : string;
  summary_html : string;
  action_items : list ActionItem
}.

(** The local variables the [for line in lines] loop reads and writes. *)
Record Locals : Type := mkLocals {
  l_title : string;
  l_current_section : option section;
  l_summary_lines : list string;
  l_action_items : list ActionItem
}.

Definition default_title : string := "Meeting Summary & Transcript".

Definition in_section (st : Locals) (s : section) : bool :=
  match l_current_section st with
  | Some s' => section_eqb s' s
  | None => false
  end.

(** Lines 192-197: the numbering removal. *)
Definition remove_numbering (line_stripped : string) : Result string :=
  let action_text := line_stripped in
  action_text <-
    (if contains ". " action_text then item_last (split1 ". " action_text)
     else if contains ") " action_text then item_last (split1 ") " action_text)
     else Ok action_text) ;;
  Ok (strip (lstrip_chars "* " (lstrip_chars "- " action_text))).

(** Line 201: the marker test. *)
Definition has_marker (action_text : string) : bool :=
  contains "| ASSIGNEE:" action_text || contains "|ASSIGNEE:" action_text.

(** Lines 199-206: the assignee split. *)
Definition split_assignee (action_text : string) : Result (string * option string) :=
  if has_marker action_text then
    parts <- Ok (split "|" action_text) ;;
    p0 <- item parts 0 ;;
    p1 <- item parts 1 ;;
    let assignee_part := strip p1 in
    if startswith (upper assignee_part) "ASSIGNEE:"
    then Ok (strip p0, Some (strip (drop 9 assignee_part)))
    else Ok (strip p0, None)
  else Ok (action_text, None).

Definition push_item (st : Locals) (it : ActionItem) : Locals :=
  mkLocals (l_title st) (l_current_section st) (l_summary_lines st)
           (l_action_items st ++ [it]).

(** Lines 189-212: one non-blank line met in the action section. *)
Definition action_line (st : Locals) (line_stripped : string) : Result Locals :=
  c <- char_at line_stripped 0 ;;
  if isdigit c || startswith line_stripped "-" then
    action_text <- remove_numbering line_stripped ;;
    ta <- split_assignee action_text ;;
    let '(action_text, assignee) := ta in
    if truthy action_text then Ok (push_item st (mkItem action_text assignee))
    else Ok st
  else Ok st.

(** [line_stripped.upper().startswith(keyword)] *)
Definition is_header (keyword line_stripped : string) : bool :=
  startswith (upper line_stripped) keyword.

(** Lines 178-212: the body of the loop. *)
Definition step (st : Locals) (line : string) : Result Locals :=
  let line_stripped := strip line in
  if is_header "TITLE:" line_stripped then
    Ok (mkLocals (strip (drop 6 line_stripped)) (Some SecTitle)
                 (l_summary_lines st) (l_action_items st))
  else if is_header "SUMMARY:" line_stripped then
    Ok (mkLocals (l_title st) (Some SecSummary) (l_summary_lines st) (l_action_items st))
  else if is_header "ACTION ITEMS:" line_stripped then
    Ok (mkLocals (l_title st) (Some SecActions) (l_summary_lines st) (l_action_items st))
  else if in_section st SecSummary && truthy line_stripped then
    Ok (mkLocals (l_title st) (l_current_section st)
                 (l_summary_lines st ++ [line]) (l_action_items st))
  else if in_section st SecActions && truthy line_stripped then
    action_line st line_stripped
  else Ok st.

Fixpoint loop (st : Locals) (lines : list string) : Result Locals :=
  match lines with
  | [] => Ok st
  | line :: rest => st' <- step st line ;; loop st' rest
  end.

Definition initial : Locals := mkLocals default_title None [] [].

(** Lines 167-221: from the completion text to the returned dict. *)
Definition parse_content (content : string) : Result MeetingRecord :=
  let lines := split nl_char content in
  st <- loop initial lines ;;
  let summary_html :=
    match l_summary_lines st with
    | [] => content
    | _ => strip (join nl (l_summary_lines st))
    end in
  Ok (mkRecord (l_title st) summary_html (l_action_items st)).

(** What the [except Exception] handler of line 228 turns a raised
    exception into. *)
Definition error_record (e : PyExn) : MeetingRecord :=
  match e with
  | IndexError msg =>
      mkRecord default_title
               ("<p><em>OpenAI summary error: " ++ msg ++ "</em></p>")%string []
  end.

(** The status-200 branch under its [try]: parse, or fall back. *)
Definition summary_of_content (content : string) : MeetingRecord :=
  match parse_content content with
  | Ok r => r
  | Raise e => error_record e
  end.

End Parser.

(** ** Remote services

    Each HTTP call of the script is a typed handler on an abstract remote
    state [W]; URLs, credentials and headers are left out, the JSON fields
    the script reads or writes are kept.  Responses are taken to be
    well-formed JSON of the documented shape, and Confluence content ids of
    the search listing to be decimal numerals ([int(page_id)] is then the
    injection of [N] into [Z]). *)

Module Remote.
Import Py.

(** POST https://api.openai.com/v1/chat/completions *)
Record ChatRequest : Type := mkChat {
  chat_model : string;
  chat_system : string;
  chat_user : string
}.
Record ChatResponse : Type := mkChatResp {
  chat_status : Z;
  chat_text : string;         (* resp.text *)
  chat_content : string       (* choices[0].message.content *)
}.

(** GET /wiki/rest/api/content/search *)
Record SearchRequest : Type := mkSearch {
  search_cql : string;
  search_limit : nat;
  search_expand : string
}.
Record PageInfo : Type := mkPage {
  page_id : N;
  page_title : string
}.
Record SearchResponse : Type := mkSearchResp {
  search_status : Z;
  search_results : list PageInfo
}.

(** POST /wiki/rest/api/content *)
Record CreateRequest : Type := mkCreate {
  create_title : string;
  create_space : string;
  create_ancestor : option Z;
  create_body : string
}.
Record CreateResponse : Type := mkCreateResp {
  create_status : Z;
  created_id : string;
  created_webui : string
}.

(** GET /wiki/api/v2/pages/{id}?body-format=storage *)
Record PageDoc : Type := mkDoc {
  doc_title : option string;
  doc_body : option string;       (* body.storage.value *)
  doc_version : option Z          (* version.number *)
}.
Record GetResponse : Type := mkGetResp {
  get_status : Z;
  get_page : PageDoc
}.

(** PUT /wiki/api/v2/pages/{id} *)
Record PutRequest : Type := mkPut {
  put_id : string;
  put_status : string;
  put_title : string;
  put_body : string;
  put_version : Z
}.

(** GET /rest/api/3/user/search *)
Record UserSearchResponse : Type := mkUsers {
  users_status : Z;
  users_account_ids : list string
}.

(** POST /rest/api/3/issue *)
Record IssueRequest : Type := mkIssue {
  issue_project : string;
  issue_summary : string;
  issue_description : string;
  issue_type : string;
  issue_assignee : option string
}.
Record IssueResponse : Type := mkIssueResp {
  issue_status : Z;
  issue_key : string
}.

Class Services (W : Type) : Type := {
  openai_chat : ChatRequest -> W -> ChatResponse * W;
  content_search : SearchRequest -> W -> SearchResponse * W;
  content_create : CreateRequest -> W -> CreateResponse * W;
  content_delete : string -> W -> Z * W;
  page_get : string -> W -> GetResponse * W;
  page_put : PutRequest -> W -> Z * W;
  user_search : string -> W -> UserSearchResponse * W;
  issue_create : IssueRequest -> W -> IssueResponse * W
}.

Inductive Event : Type :=
| EvChat (q : ChatRequest) (r : ChatResponse)
| EvSearch (q : SearchRequest) (r : SearchResponse)
| EvCreate (q : CreateRequest) (r : CreateResponse)
| EvDelete (id : string) (status : Z)
| EvGet (id : string) (r : GetResponse)
| EvPut (q : PutRequest) (status : Z)
| EvUserSearch (query : string) (r : UserSearchResponse)
| EvIssue (q : IssueRequest) (r : IssueResponse).

(** A computation over the remote state that logs its calls. *)
Definition M (W A : Type) : Type := W -> A * W * list Event.

Definition ret {W A} (a : A) : M W A := fun w => (a, w, []).

Definition mbind {W A B} (m : M W A) (k : A -> M W B) : M W B :=
  fun w =>
    let '(a, w1, t1) := m w in
    let '(b, w2, t2) := k a w1 in
    (b, w2, t1 ++ t2).

Definition call {W Q R} (h : Q -> W -> R * W) (ev : Q -> R -> Event) (q : Q) : M W R :=
  fun w => let '(r, w1) := h q w in (r, w1, [ev q r]).

Definition result {W A} (x : A * W * list Event) : A := fst (fst x).
Definition world {W A} (x : A * W * list Event) : W := snd (fst x).
Definition trace {W A} (x : A * W * list Event) : list Event := snd x.

(** [status_code in [200, 201]] *)
Definition created (status : Z) : bool := (status =? 200)%Z || (status =? 201)%Z.

Definition show_N (n : N) : string := NilZero.string_of_uint (N.to_uint n).
Definition show_Z (z : Z) : string := NilZero.string_of_int (Z.to_int z).

Definition dquote : string := String (ascii_of_nat 34) EmptyString.

End Remote.

Notation "x <~ m ;; k" := (Remote.mbind m (fun x => k))
  (at level 61, m at next level, right associativity).

(** ** The script's functions *)

Module Fetcher.
Import Py Parser Remote.

(** Values read from the environment and the clock; [base_url] is
    [CONFLUENCE_URL] after the script's trailing-slash and [/wiki]
    clean-up. *)
Record Config : Type := mkConfig {
  api_key : option string;          (* OPENAI_API_KEY *)
  space_key : string;               (* CONFLUENCE_SPACE_KEY *)
  project_key : string;             (* JIRA_PROJECT_KEY, default DUB *)
  base_url : string;
  today : string;                   (* strftime('%B %d, %Y') *)
  timestamp : string;               (* strftime('%Y-%m-%d_%H-%M') *)
  generated_on : string             (* strftime('%B %d, %Y at %I:%M %p') *)
}.

(** [ENGINEER_PAGES], in insertion order. *)
Definition ENGINEER_PAGES : list (string * string) :=
  [("GUY", "491638"); ("EYAL", "491645"); ("ARVIN", "98393"); ("MAYA", "557203")].

Definition truthy_opt (o : option string) : bool :=
  match o with
  | Some s => truthy s
  | None => false
  end.

Definition system_prompt : string :=
  ("You are an assistant that generates concise, actionable " ++
   "meeting summaries and highlights from transcripts. " ++
   "First, create a concise title for the meeting based on the main topic. " ++
   "Then provide a meeting summary with key decisions. " ++
   "Finally, extract specific actionable items that can become Jira tickets. " ++
   "IMPORTANT: For each action item, identify WHO should do it based on the transcript. " ++
   "Return in this exact format:" ++ nl ++ nl ++
   "TITLE: [Your title here]" ++ nl ++ nl ++
   "SUMMARY:" ++ nl ++
   "[HTML content using only simple tags like <p>, <ul>, <li>, <h3>, <strong>]" ++ nl ++ nl ++
   "ACTION ITEMS:" ++ nl ++
   "1. [Specific actionable task] | ASSIGNEE: [Person's name from transcript]" ++ nl ++
   "2. [Another specific actionable task] | ASSIGNEE: [Person's name from transcript]" ++ nl ++
   "..." ++ nl ++ nl ++
   "Note: Use the exact names as they appear in the transcript (e.g., " ++
   dquote ++ "Maya" ++ dquote ++ ", " ++ dquote ++ "Eyal" ++ dquote ++ ").")%string.

Definition user_prompt (transcript_text : string) : string :=
  ("Analyze the transcript below and provide:" ++ nl ++
   "1. A concise title for the meeting" ++ nl ++
   "2. A short meeting summary with key decisions" ++ nl ++
   "3. A numbered list of specific actionable items (things that need to be done)" ++
   nl ++ nl ++ "Transcript:" ++ nl ++ transcript_text)%string.

(** Line 591 of [main]. *)
Definition ticket_summary (task : string) : string :=
  if 100 <? String.length task then (take 97 task ++ "...")%string else task.

(** Lines 594-598 of [main]. *)
Definition ticket_description (title task confluence_link : string) : string :=
  ("Action item from meeting: " ++ title ++ nl ++ nl ++
   "Task: " ++ task ++ nl ++ nl ++
   "Meeting notes: " ++ confluence_link)%string.

Definition format_transcript_for_confluence (cfg : Config) (ai_result : MeetingRecord)
  : string :=
  ("<h1>" ++ title ai_result ++ "</h1>" ++ nl ++ nl ++
   "<h2>Summary</h2>" ++ nl ++ summary_html ai_result ++ nl ++ nl ++
   "<p><em>Generated on " ++ generated_on cfg ++ "</em></p>")%string.

(** Line 277: the throwaway page tried under a candidate parent. *)
Definition test_data (space_key : string) (page_id : N) : CreateRequest :=
  mkCreate ("Test Page - " ++ show_N page_id)%string space_key
           (Some (Z.of_N page_id)) "<p>Test</p>".

(** Line 258: the listing query. *)
Definition search_params (space_key : string) : SearchRequest :=
  mkSearch ("space=" ++ space_key ++ " AND type=page")%string 10 "ancestors".

(** Line 406-407: the two messages of the contribution request. *)
Definition contribution_request (name transcript : string) : ChatRequest :=
  mkChat "gpt-4o-mini"
    ("Extract " ++ name ++ "'s contributions as a bullet list. Return " ++
     dquote ++ "NONE" ++ dquote ++ " if not mentioned.")%string
    ("What did " ++ name ++ " contribute in this meeting?" ++ nl ++ nl ++ transcript)%string.

(** Line 429. *)
Definition new_section (meeting_title date contributions : string) : string :=
  (nl ++ "<h3>" ++ meeting_title ++ " - " ++ date ++ "</h3>" ++ nl ++
   contributions ++ nl)%string.

(** Lines 425-426: the nested [get] calls with their defaults. *)
Definition current_body (page : PageDoc) : string :=
  match doc_body page with Some b => b | None => EmptyString end.
Definition version_number (page : PageDoc) : Z :=
  match doc_version page with Some v => v | None => 1%Z end.
Definition title_of (page : PageDoc) : string :=
  match doc_title page with Some t => t | None => EmptyString end.

(** Line 414: the condition of the first [continue]. *)
Definition no_contribution (resp : ChatResponse) : bool :=
  negb (chat_status resp =? 200)%Z || contains "NONE" (chat_content resp).

Section WithServices.
Context {W : Type} {SV : Services W}.

Definition generate_meeting_summary_with_openai (cfg : Config) (transcript_text : string)
  : M W MeetingRecord :=
  if negb (truthy_opt (api_key cfg)) then
    ret (mkRecord default_title
           "<p><em>OPENAI_API_KEY not set; skipping AI summary.</em></p>" [])
  else
    resp <~ call openai_chat EvChat
              (mkChat "gpt-4o-mini" system_prompt (user_prompt transcript_text)) ;;
    if (chat_status resp =? 200)%Z then ret (summary_of_content (chat_content resp))
    else
      ret (mkRecord default_title
             ("<p><em>OpenAI summary request failed: " ++ show_Z (chat_status resp) ++
              " - " ++ chat_text resp ++ "</em></p>")%string []).

(** Lines 271-304: the [for page in pages] loop with its early return. *)
Fixpoint probe_pages (space_key : string) (pages : list PageInfo) : M W (option N) :=
  match pages with
  | [] => ret None
  | page :: rest =>
      test_response <~ call content_create EvCreate
                         (test_data space_key (page_id page)) ;;
      if created (create_status test_response) then
        _ <~ call content_delete EvDelete (created_id test_response) ;;
        ret (Some (page_id page))
      else probe_pages space_key rest
  end.

Definition find_valid_parent_pages (space_key : string) : M W (option N) :=
  response <~ call content_search EvSearch (search_params space_key) ;;
  if (search_status response =? 200)%Z
  then probe_pages space_key (search_results response)
  else ret None.

Definition create_confluence_page (cfg : Config) (title content : string)
  : M W (option CreateResponse) :=
  let data := mkCreate title (space_key cfg) None content in
  response <~ call content_create EvCreate data ;;
  response <~
    (if negb (created (create_status response)) then
       valid_parent <~ find_valid_parent_pages (space_key cfg) ;;
       match valid_parent with
       | Some parent_page_id =>
           response <~ call content_create EvCreate
             (mkCreate title (space_key cfg) (Some (Z.of_N parent_page_id)) content) ;;
           ret (Some response)
       | None => ret None
       end
     else ret (Some response)) ;;
  match response with
  | Some response =>
      if created (create_status response) then ret (Some response) else ret None
  | None => ret None
  end.

Definition get_jira_user_by_name (name : string) : M W (option string) :=
  response <~ call user_search EvUserSearch name ;;
  if (users_status response =? 200)%Z then
    match users_account_ids response with
    | account_id :: _ => ret (Some account_id)
    | [] => ret None
    end
  else ret None.

(** Lines 357-363: the assignee field, when one is set. *)
Definition resolve_assignee (assignee_name : option string) : M W (option string) :=
  if truthy_opt assignee_name then
    account_id <~ get_jira_user_by_name
                    (match assignee_name with Some n => n | None => EmptyString end) ;;
    if truthy_opt account_id then ret account_id else ret None
  else ret None.

Definition create_jira_ticket (summary description project_key issue_type : string)
    (assignee_name : option string) (sprint_id : option Z)
  : M W (option IssueResponse) :=
  account <~ resolve_assignee assignee_name ;;
  response <~ call issue_create EvIssue
                (mkIssue project_key summary description issue_type account) ;;
  if created (issue_status response) then ret (Some response) else ret None.

(** Lines 585-613 of [main]: the ticket loop. *)
Fixpoint create_tickets (cfg : Config) (title confluence_link : string)
    (items : list ActionItem) (created_tickets : list string) : M W (list string) :=
  match items with
  | [] => ret created_tickets
  | action_item :: rest =>
      let task := task action_item in
      let assignee := assignee action_item in
      ticket_result <~ create_jira_ticket (ticket_summary task)
                         (ticket_description title task confluence_link)
                         (project_key cfg) "Task" assignee None ;;
      create_tickets cfg title confluence_link rest
        (match ticket_result with
         | Some r => created_tickets ++ [issue_key r]
         | None => created_tickets
         end)
  end.

(** Lines 399-445: the body of the loop over [ENGINEER_PAGES]. *)
Definition update_engineer_page (cfg : Config) (transcript meeting_title : string)
    (entry : string * string) : M W unit :=
  let '(name, page_id) := entry in
  resp <~ call openai_chat EvChat (contribution_request name transcript) ;;
  if no_contribution resp then ret tt
  else
    let contributions := chat_content resp in
    page_resp <~ call page_get EvGet page_id ;;
    if negb (get_status page_resp =? 200)%Z then ret tt
    else
      let page := get_page page_resp in
      let updated_body :=
        (current_body page ++ new_section meeting_title (today cfg) contributions)%string in
      _ <~ call page_put EvPut
             (mkPut page_id "current" (title_of page) updated_body
                    (version_number page + 1)%Z) ;;
      ret tt.

Fixpoint for_each {A} (body : A -> M W unit) (l : list A) : M W unit :=
  match l with
  | [] => ret tt
  | x :: rest => _ <~ body x ;; for_each body rest
  end.

(** [update_engineer_pages], with the roster as a parameter. *)
Definition update_engineer_pages_of (roster : list (string * string)) (cfg : Config)
    (transcript meeting_title : string) : M W unit :=
  match roster with
  | [] => ret tt
  | _ =>
      if negb (truthy_opt (api_key cfg)) then ret tt
      else for_each (update_engineer_page cfg transcript meeting_title) roster
  end.

Definition update_engineer_pages := update_engineer_pages_of ENGINEER_PAGES.

(** [main], from the text read from the transcript file on. *)
Definition main (cfg : Config) (file_text : string) : M W unit :=
  let transcript := strip file_text in
  if negb (truthy transcript) then ret tt
  else
    ai_result <~ generate_meeting_summary_with_openai cfg transcript ;;
    let confluence_content := format_transcript_for_confluence cfg ai_result in
    if negb (truthy confluence_content) then ret tt
    else
      let unique_title := (title ai_result ++ " - " ++ timestamp cfg)%string in
      confluence_result <~ create_confluence_page cfg unique_title confluence_content ;;
      let confluence_link :=
        match confluence_result with
        | Some r => (base_url cfg ++ "/wiki" ++ created_webui r)%string
        | None => "N/A"
        end in
      _ <~ create_tickets cfg (title ai_result) confluence_link
             (action_items ai_result) [] ;;
      update_engineer_pages cfg transcript (title ai_result).

End WithServices.

End Fetcher.

(** ** Numbering removal as the specification words it

    "numbering/bullet prefixes (1. , 1) , - , * ) are stripped via
    first-match-wins on an ordered list of prefix patterns": a pattern
    matches at the start of the line only, and the first pattern that
    matches is the one removed. *)

Module PrefixPatterns.
Import Py.

Inductive pattern : Type := NumberDot | NumberParen | Dash | Star.

Definition patterns : list pattern := [NumberDot; NumberParen; Dash; Star].

(** [after_number s]: what follows a non-empty run of leading digits. *)
Definition after_number (s : string) : option string :=
  match s with
  | String c _ => if isdigit c then Some (lstrip_by isdigit s) else None
  | EmptyString => None
  end.

Definition after_literal (lit s : string) : option string :=
  if startswith s lit then Some (drop (String.length lit) s) else None.

(** The rest of the line when the pattern matches its start. *)
Definition matches (p : pattern) (s : string) : option string :=
  match p with
  | NumberDot =>
      match after_number s with Some r => after_literal ". " r | None => None end
  | NumberParen =>
      match after_number s with Some r => after_literal ") " r | None => None end
  | Dash => after_literal "- " s
  | Star => after_literal "* " s
  end.

Fixpoint first_match (ps : list pattern) (s : string) : string :=
  match ps with
  | [] => s
  | p :: rest =>
      match matches p s with
      | Some r => r
      | None => first_match rest s
      end
  end.

Definition strip_prefix (line_stripped : string) : string :=
  first_match patterns line_stripped.

End PrefixPatterns.

(** ** Reading traces *)

Module Traces.
Import Py Parser Remote Fetcher.

Fixpoint create_requests (t : list Event) : list CreateRequest :=
  match t with
  | [] => []
  | EvCreate q _ :: rest => q :: create_requests rest
  | _ :: rest => create_requests rest
  end.

Fixpoint issue_requests (t : list Event) : list IssueRequest :=
  match t with
  | [] => []
  | EvIssue q _ :: rest => q :: issue_requests rest
  | _ :: rest => issue_requests rest
  end.

(** A rejected trial creation under the candidate [p]. *)
Definition rejected_probe (space_key : string) (p : PageInfo) (e : Event) : Prop :=
  exists r, e = EvCreate (test_data space_key (page_id p)) r /\
            created (create_status r) = false.

(** The creation request [main] builds for an action item. *)
Definition issue_for (cfg : Config) (title confluence_link : string)
    (it : ActionItem) (account : option string) : IssueRequest :=
  mkIssue (project_key cfg) (ticket_summary (task it))
          (ticket_description title (task it) confluence_link) "Task" account.

(** The calls made for one action item: an optional directory search and
    then, whatever its outcome, one creation request. *)
Definition ticket_attempt (cfg : Config) (title confluence_link : string)
    (it : ActionItem) (chunk : list Event) : Prop :=
  (truthy_opt (assignee it) = false /\
   exists r, chunk = [EvIssue (issue_for cfg title confluence_link it None) r])
  \/
  (exists name found account r,
      assignee it = Some name /\ truthy name = true /\
      chunk = [EvUserSearch name found;
               EvIssue (issue_for cfg title confluence_link it account) r] /\
      ((users_status found <> 200%Z \/ users_account_ids found = []) -> account = None) /\
      (forall a rest, users_status found = 200%Z ->
                      users_account_ids found = a :: rest -> truthy a = true ->
                      account = Some a)).

(** The calls made for one roster entry by [update_engineer_page]. *)
Definition person_update (cfg : Config) (transcript meeting_title : string)
    (entry : string * string) (chunk : list Event) : Prop :=
  let q := contribution_request (fst entry) transcript in
  (exists r, no_contribution r = true /\ chunk = [EvChat q r])
  \/
  (exists r g, no_contribution r = false /\ get_status g <> 200%Z /\
               chunk = [EvChat q r; EvGet (snd entry) g])
  \/
  (exists r g s, no_contribution r = false /\ get_status g = 200%Z /\
     chunk = [EvChat q r; EvGet (snd entry) g;
              EvPut (mkPut (snd entry) "current" (title_of (get_page g))
                       (current_body (get_page g) ++
                        new_section meeting_title (today cfg) (chat_content r))%string
                       (version_number (get_page g) + 1)%Z) s]).

End Traces.

(** ** A scripted remote, for running the functions on concrete inputs *)

Module Demo.
Import Py Parser Remote Fetcher.

Definition cfg : Config :=
  mkConfig (Some "sk-test") "ENG" "DUB" "https://example.atlassian.net"
           "March 03, 2025" "2025-03-03_10-15" "March 03, 2025 at 10:15 AM".

Definition completion : string :=
  ("TITLE: Retry work" ++ nl ++ nl ++
   "SUMMARY:" ++ nl ++ "<p>Retries were discussed.</p>" ++ nl ++ nl ++
   "ACTION ITEMS:" ++ nl ++
   "1. Write the design note | ASSIGNEE: Eyal" ++ nl ++
   "2) Fix the retry bug | ASSIGNEE: Maya" ++ nl ++
   "3. Archive the old board")%string.

(** The model answers the summary request with [completion]; asked for
    contributions it answers NONE for GUY, fails for ARVIN, and returns a
    bullet otherwise. *)
Definition chat (q : ChatRequest) (w : unit) : ChatResponse * unit :=
  if contains "GUY" (chat_system q) then (mkChatResp 200 "" "NONE", w)
  else if contains "ARVIN" (chat_system q) then (mkChatResp 500 "overloaded" "", w)
  else if contains "Extract" (chat_system q)
       then (mkChatResp 200 "" "<ul><li>Reviewed the retry patch</li></ul>", w)
  else (mkChatResp 200 "" completion, w).

Definition pages : list PageInfo :=
  [mkPage 11 "Home"; mkPage 12 "Team"; mkPage 13 "Notes"].

(** Only page 12 accepts children; the space root accepts nothing. *)
Definition create (q : CreateRequest) (w : unit) : CreateResponse * unit :=
  match create_ancestor q with
  | Some 12%Z => (mkCreateResp 200 "900" "/spaces/ENG/pages/900", w)
  | _ => (mkCreateResp 403 "" "", w)
  end.

(** Directory: Maya is known, Eyal is not, any other query fails. *)
Definition directory (name : string) (w : unit) : UserSearchResponse * unit :=
  if String.eqb name "Maya" then (mkUsers 200 ["acc-maya"], w)
  else if String.eqb name "Eyal" then (mkUsers 200 [], w)
  else (mkUsers 404 [], w).

(** Issue creation fails for the design note and succeeds otherwise. *)
Definition issue (q : IssueRequest) (w : unit) : IssueResponse * unit :=
  if String.eqb (issue_summary q) "Write the design note"
  then (mkIssueResp 400 "", w)
  else (mkIssueResp 201 "DUB-7", w).

#[export] Instance services : Services unit := {
  openai_chat := chat;
  content_search := fun _ w => (mkSearchResp 200 pages, w);
  content_create := create;
  content_delete := fun _ w => (500%Z, w);
  page_get := fun _ w =>
    (mkGetResp 200 (mkDoc (Some "Log") (Some "<p>old</p>") (Some 7%Z)), w);
  page_put := fun _ w => (200%Z, w);
  user_search := directory;
  issue_create := issue
}.

Definition long_task : string :=
  ("aaaaaaaaaaaaaaaaaaaaaaaaaaaaaaaaaaaaaaaaaaaaaaaaaa" ++
   "aaaaaaaaaaaaaaaaaaaaaaaaaaaaaaaaaaaaaaaaaaaaaaaaaa" ++ "b")%string.

Definition items : list ActionItem :=
  [mkItem "Write the design note" (Some "Eyal");
   mkItem "Fix the retry bug" (Some "Maya");
   mkItem "Archive the old board" None].

End Demo.

(** ** The line format the system prompt asks for *)

Module Format.
Import Py Parser.

Fixpoint all_chars (p : ascii -> bool) (s : string) : bool :=
  match s with
  | EmptyString => true
  | String c t => p c && all_chars p t
  end.

(** Lines 141-142 of the prompt: [N. task | ASSIGNEE: name]. *)
Definition render_action (number task name : string) : string :=
  (number ++ ". " ++ task ++ " | ASSIGNEE: " ++ name)%string.

(** A non-empty run of decimal digits. *)
Definition is_number (s : string) : bool := truthy s && all_chars isdigit s.

(** A non-empty text without surrounding whitespace, bar or newline. *)
Definition clean (s : string) : bool :=
  truthy s && String.eqb (strip s) s && negb (contains "|" s) && negb (contains nl s).

(** The text does not start with a dash, a star or a blank. *)
Definition plain_start (s : string) : bool :=
  String.eqb (lstrip_chars "* " (lstrip_chars "- " s)) s.


Definition well_formed (a : string * string * string) : bool :=
  let '(number, task, name) := a in
  is_number number && clean task && plain_start task && clean name.

Definition line_of (a : string * string * string) : string :=
  let '(number, task, name) := a in render_action number task name.

Definition item_of (a : string * string * string) : ActionItem :=
  let '(_, task, name) := a in mkItem task (Some name).

(** A title text as it comes back from the TITLE: line. *)
Definition title_text (s : string) : bool :=
  truthy s && String.eqb (strip s) s && negb (contains nl s).

(** A line that the summary section keeps: not blank, no header, one line. *)
Definition summary_line (l : string) : bool :=
  truthy (strip l) && negb (is_header "TITLE:" (strip l)) &&
  negb (is_header "SUMMARY:" (strip l)) && negb (is_header "ACTION ITEMS:" (strip l)) &&
  negb (contains nl l).

(** An item with a non-empty trimmed task and, when it has one, a trimmed
    assignee without a bar. *)
Definition tidy (it : ActionItem) : Prop :=
  truthy (task it) = true /\ strip (task it) = task it /\
  forall n, assignee it = Some n -> strip n = n /\ contains "|" n = false.

(** The three sections in the order the prompt lays them out. *)
Definition document (ttl : string) (summary : list string)
    (actions : list (string * string * string)) : list string :=
  ("TITLE: " ++ ttl)%string :: "SUMMARY:" :: summary ++
  "ACTION ITEMS:" :: map line_of actions.

End Format.

(** ** The site URL clean-up *)

Module Site.
Import Py.

(** [s.endswith(suffix)] *)
Definition endswith (s suffix : string) : bool :=
  (String.length suffix <=? String.length s) &&
  String.eqb (drop (String.length s - String.length suffix) s) suffix.

(** [s.rstrip(chars)] *)
Definition rstrip_chars (chars s : string) : string :=
  rstrip_by (fun c => mem c chars) s.

Fixpoint replicate (n : nat) (c : ascii) : string :=
  match n with
  | O => EmptyString
  | S k => String c (replicate k c)
  end.

(** Lines 75-77, repeated at 310-312, 332-334, 462-464 and 565-567:
    [os.getenv('CONFLUENCE_URL', '').rstrip('/')], then the [/wiki] suffix
    is cut off with [base_url[:-5]]. *)
Definition clean_base_url (confluence_url : option string) : string :=
  let base_url :=
    rstrip_chars "/" (match confluence_url with Some u => u | None => EmptyString end) in
  if endswith base_url "/wiki"
  then take (String.length base_url - 5) base_url
  else base_url.

End Site.

(** ** The Zoom recording download *)

Module Zoom.
Import Py.

Record RecordingFile : Type := mkFile {
  file_type : string;
  download_url : string
}.

(** GET /v2/meetings/{id}/recordings *)
Record RecordingsResponse : Type := mkRecordings {
  recordings_status : Z;
  recording_files : list RecordingFile
}.

(** GET of a file's download URL; the script reads only [.text]. *)
Record DownloadResponse : Type := mkDownload {
  download_status : Z;
  download_text : string
}.

Class Api (W : Type) : Type := {
  recordings : string -> string -> W -> RecordingsResponse * W;
  download : string -> W -> DownloadResponse * W
}.

Inductive ZoomEvent : Type :=
| ZRecordings (meeting_id access_token : string) (r : RecordingsResponse)
| ZDownload (url : string) (r : DownloadResponse).

Fixpoint downloads (t : list ZoomEvent) : list string :=
  match t with
  | [] => []
  | ZDownload url _ :: rest => url :: downloads rest
  | _ :: rest => downloads rest
  end.

Section WithApi.
Context {W : Type} {Z_api : Api W}.

(** Lines 58-64: the loop over [recording_files] with its early return. *)
Fixpoint scan_recordings (access_token : string) (files : list RecordingFile) (w : W)
  : option string * W * list ZoomEvent :=
  match files with
  | [] => (None, w, [])
  | recording :: rest =>
      if String.eqb (file_type recording) "TRANSCRIPT" then
        let transcript_url := download_url recording in
        let url := (transcript_url ++ "?access_token=" ++ access_token)%string in
        let '(transcript_response, w1) := download url w in
        (Some (download_text transcript_response), w1, [ZDownload url transcript_response])
      else scan_recordings access_token rest w
  end.

Definition get_meeting_transcript (access_token meeting_id : string) (w : W)
  : option string * W * list ZoomEvent :=
  let '(response, w1) := recordings meeting_id access_token w in
  if (recordings_status response =? 200)%Z then
    let '(res, w2, t) := scan_recordings access_token (recording_files response) w1 in
    (res, w2, ZRecordings meeting_id access_token response :: t)
  else (None, w1, [ZRecordings meeting_id access_token response]).

End WithApi.

End Zoom.

(** ** More trace readers *)

Module Readers.
Import Py Parser Remote Fetcher.

Fixpoint chat_requests (t : list Event) : list ChatRequest :=
  match t with
  | [] => []
  | EvChat q _ :: rest => q :: chat_requests rest
  | _ :: rest => chat_requests rest
  end.

Fixpoint user_queries (t : list Event) : list string :=
  match t with
  | [] => []
  | EvUserSearch q _ :: rest => q :: user_queries rest
  | _ :: rest => user_queries rest
  end.

Fixpoint put_requests (t : list Event) : list PutRequest :=
  match t with
  | [] => []
  | EvPut q _ :: rest => q :: put_requests rest
  | _ :: rest => put_requests rest
  end.

(** Keys of the issues whose creation the tracker accepted. *)
Fixpoint accepted_keys (t : list Event) : list string :=
  match t with
  | [] => []
  | EvIssue _ r :: rest =>
      if created (issue_status r) then issue_key r :: accepted_keys rest
      else accepted_keys rest
  | _ :: rest => accepted_keys rest
  end.

(** The event belongs to the log update of a page of [roster]. *)
Definition log_event (roster : list (string * string)) (e : Event) : Prop :=
  match e with
  | EvChat _ _ => True
  | EvGet id _ => In id (map snd roster)
  | EvPut q _ => In (put_id q) (map snd roster)
  | _ => False
  end.

(** Lines 111-115: the record returned when no API key is set. *)
Definition placeholder : MeetingRecord :=
  mkRecord default_title "<p><em>OPENAI_API_KEY not set; skipping AI summary.</em></p>" [].

(** The items whose assignee is a non-empty name. *)
Definition named_assignees (items : list ActionItem) : list string :=
  flat_map (fun it => match assignee it with
                      | Some n => if truthy n then [n] else []
                      | None => []
                      end) items.

End Readers.

(** ** More scripted remotes *)

Module Scenarios.
Import Py Parser Remote Fetcher.

(** The space root accepts the page; every page read is refused. *)
#[export] Instance open_root : Services unit := {
  openai_chat := Demo.chat;
  content_search := fun _ w => (mkSearchResp 500 [], w);
  content_create := fun _ w => (mkCreateResp 200 "77" "/spaces/ENG/pages/77", w);
  content_delete := fun _ w => (204%Z, w);
  page_get := fun _ w => (mkGetResp 404 (mkDoc None None None), w);
  page_put := fun _ w => (200%Z, w);
  user_search := Demo.directory;
  issue_create := Demo.issue
}.

(** Nothing can be created anywhere in the space. *)
#[export] Instance read_only : Services unit := {
  openai_chat := Demo.chat;
  content_search := fun _ w => (mkSearchResp 200 Demo.pages, w);
  content_create := fun _ w => (mkCreateResp 403 "" "", w);
  content_delete := fun _ w => (204%Z, w);
  page_get := fun _ w => (mkGetResp 404 (mkDoc None None None), w);
  page_put := fun _ w => (200%Z, w);
  user_search := Demo.directory;
  issue_create := Demo.issue
}.

(** The model service answers every request with a 503. *)
#[export] Instance model_down : Services unit := {
  openai_chat := fun _ w => (mkChatResp 503 "unavailable" "", w);
  content_search := fun _ w => (mkSearchResp 200 Demo.pages, w);
  content_create := Demo.create;
  content_delete := fun _ w => (204%Z, w);
  page_get := fun _ w => (mkGetResp 404 (mkDoc None None None), w);
  page_put := fun _ w => (200%Z, w);
  user_search := Demo.directory;
  issue_create := Demo.issue
}.

(** The listing ignores the requested limit and returns eleven documents;
    none of them accepts children. *)
#[export] Instance crowded : Services unit := {
  openai_chat := Demo.chat;
  content_search := fun _ w =>
    (mkSearchResp 200 (map (fun n => mkPage (N.of_nat n) "Page") (seq 1 11)), w);
  content_create := fun _ w => (mkCreateResp 403 "" "", w);
  content_delete := fun _ w => (204%Z, w);
  page_get := fun _ w => (mkGetResp 404 (mkDoc None None None), w);
  page_put := fun _ w => (200%Z, w);
  user_search := Demo.directory;
  issue_create := Demo.issue
}.

Definition no_key : Config :=
  mkConfig None "ENG" "DUB" "https://example.atlassian.net"
           "March 03, 2025" "2025-03-03_10-15" "March 03, 2025 at 10:15 AM".

(** A recording with a chat log, then a transcript whose download is
    answered with a 404 page, then a second transcript. *)
Definition files : list Zoom.RecordingFile :=
  [Zoom.mkFile "CHAT" "https://zoom.example/chat";
   Zoom.mkFile "TRANSCRIPT" "https://zoom.example/t1";
   Zoom.mkFile "TRANSCRIPT" "https://zoom.example/t2"].

#[export] Instance zoom : Zoom.Api unit := {
  Zoom.recordings := fun _ _ w => (Zoom.mkRecordings 200 files, w);
  Zoom.download := fun _ w => (Zoom.mkDownload 404 "<html>Not Found</html>", w)
}.

(** A meeting recorded as video only. *)
#[export] Instance video_only : Zoom.Api unit := {
  Zoom.recordings := fun _ _ w =>
    (Zoom.mkRecordings 200 [Zoom.mkFile "MP4" "https://zoom.example/v"], w);
  Zoom.download := fun _ w => (Zoom.mkDownload 200 "text", w)
}.

End Scenarios.

(** ** Facts about the string primitives *)

Module PyFacts.
Import Py.

Lemma append_assoc (a b c : string) : ((a ++ b) ++ c = a ++ (b ++ c))%string.
Proof. induction a as [|x a IH]; simpl; [reflexivity | now rewrite IH]. Qed.

Lemma append_empty_r (a : string) : (a ++ "")%string = a.
Proof. induction a as [|x a IH]; simpl; [reflexivity | now rewrite IH]. Qed.

Lemma prefix_split (p s : string) :
  String.prefix p s = true -> s = (p ++ drop (String.length p) s)%string.
Proof.
  revert s; induction p as [|a p IH]; intros s H; simpl in *.
  - destruct s; reflexivity.
  - destruct s as [|b s]; [destruct p; discriminate|].
    simpl in H. destruct (ascii_dec a b) as [->|]; [|discriminate].
    simpl. f_equal. now apply IH.
Qed.

Lemma prefix_cons (a b : ascii) (p s : string) :
  String.prefix (String a p) (String b s) = true -> a = b.
Proof. simpl. destruct (ascii_dec a b); [easy | discriminate]. Qed.

Lemma substr_refl s : substr s s.
Proof. exists ""%string, ""%string. simpl. now rewrite append_empty_r. Qed.

Lemma substr_trans s t u : substr s t -> substr t u -> substr s u.
Proof.
  intros (p1 & q1 & ->) (p2 & q2 & ->).
  exists (p1 ++ p2)%string, (q2 ++ q1)%string.
  now rewrite !append_assoc.
Qed.

Lemma substr_cons c s t : substr s t -> substr (String c s) t.
Proof. intros (p & q & ->). now exists (String c p), q. Qed.

Lemma contains_nil m : contains m "" = String.prefix m "".
Proof. unfold contains. apply orb_false_r. Qed.

Lemma contains_cons m c s :
  contains m (String c s) = String.prefix m (String c s) || contains m s.
Proof. reflexivity. Qed.

Lemma prefix_append m post : String.prefix m (m ++ post) = true.
Proof.
  induction m as [|a m IH]; simpl.
  - now destruct post.
  - destruct (ascii_dec a a); [exact IH | congruence].
Qed.

Lemma contains_substr (m s : string) :
  contains m s = true <-> substr s m.
Proof.
  split.
  - induction s as [|c s IH]; intros H.
    + rewrite contains_nil in H. apply prefix_split in H.
      exists ""%string, (drop (String.length m) ""). exact H.
    + rewrite contains_cons in H. apply orb_true_iff in H as [H|H].
      * apply prefix_split in H. exists ""%string. eexists. exact H.
      * apply substr_cons. now apply IH.
  - intros (pre & post & ->).
    induction pre as [|c pre IH].
    + change ("" ++ m ++ post)%string with (m ++ post)%string.
      destruct (m ++ post)%string eqn:E.
      * rewrite contains_nil, <- E. apply prefix_append.
      * rewrite contains_cons, <- E, prefix_append. reflexivity.
    + change (String c pre ++ m ++ post)%string with (String c (pre ++ m ++ post)).
      rewrite contains_cons, IH. apply orb_true_r.
Qed.

Lemma contains_mono (m s t : string) :
  substr s t -> contains m t = true -> contains m s = true.
Proof.
  intros Hst Hm. apply contains_substr.
  apply substr_trans with t; [exact Hst | now apply contains_substr].
Qed.

Lemma lstrip_by_substr p s : substr s (lstrip_by p s).
Proof.
  induction s as [|c s IH]; simpl.
  - apply substr_refl.
  - destruct (p c); [now apply substr_cons | apply substr_refl].
Qed.

Lemma rstrip_by_prefix p s : exists post, s = (rstrip_by p s ++ post)%string.
Proof.
  induction s as [|c s [post IH]]; simpl.
  - now exists ""%string.
  - destruct (rstrip_by p s) as [|d r] eqn:E.
    + destruct (p c).
      * now exists (String c s).
      * exists s. reflexivity.
    + exists post. simpl. now rewrite IH at 1.
Qed.

Lemma rstrip_by_substr p s : substr s (rstrip_by p s).
Proof. destruct (rstrip_by_prefix p s) as [post E]. now exists ""%string, post. Qed.

Lemma strip_substr s : substr s (strip s).
Proof.
  unfold strip. eapply substr_trans; [apply lstrip_by_substr | apply rstrip_by_substr].
Qed.

Lemma cut_split sep s b a :
  cut sep s = Some (b, a) -> s = (b ++ sep ++ a)%string.
Proof.
  revert b a; induction s as [|c s IH]; intros b a; cbn [cut].
  - destruct (String.prefix sep "") eqn:E; [|discriminate].
    intros [= <- <-]. now apply prefix_split in E.
  - destruct (String.prefix sep (String c s)) eqn:E.
    + intros [= <- <-]. now apply prefix_split in E.
    + destruct (cut sep s) as [[b' a']|]; [|discriminate].
      intros [= <- <-]. cbn [append]. f_equal. now apply IH.
Qed.

Lemma cut_contains sep s :
  contains sep s = true -> exists b a, cut sep s = Some (b, a).
Proof.
  induction s as [|c s IH]; intros H.
  - rewrite contains_nil in H. cbn [cut]. rewrite H. eauto.
  - rewrite contains_cons in H. cbn [cut].
    destruct (String.prefix sep (String c s)); [eauto|].
    cbn [orb] in H. destruct (IH H) as (b & a & ->). eauto.
Qed.

(** [s.split(sep, 1)[-1]] never fails and yields a piece of [s]. *)
Lemma split1_last sep s :
  exists x, item_last (split1 sep s) = Ok x /\ substr s x.
Proof.
  unfold split1. destruct (cut sep s) as [[b a]|] eqn:E.
  - exists a. split; [reflexivity|].
    apply cut_split in E. exists (b ++ sep)%string, ""%string.
    now rewrite append_empty_r, append_assoc.
  - exists s. split; [reflexivity | apply substr_refl].
Qed.

Lemma split_nonempty c s : exists h r, split c s = h :: r.
Proof.
  induction s as [|a s (h & r & IH)]; simpl; [eauto|].
  destruct (Ascii.eqb a c); [eauto|]. rewrite IH. eauto.
Qed.

(** A text that contains a word starting with [c] splits at [c] into at
    least two parts. *)
Lemma split_two c m s :
  contains (String c m) s = true -> exists a b r, split c s = a :: b :: r.
Proof.
  induction s as [|x s IH]; simpl.
  - discriminate.
  - intros H. destruct (Ascii.eqb x c) eqn:E.
    + destruct (split_nonempty c s) as (h & r & ->). eauto.
    + destruct (ascii_dec c x) as [->|].
      * now rewrite Ascii.eqb_refl in E.
      * simpl in H. destruct (IH H) as (a & b & r & ->). eauto.
Qed.

(** Splitting at [c] cuts at the first [c]. *)
Lemma split_cut c s b a :
  cut (String c "") s = Some (b, a) -> split c s = b :: split c a.
Proof.
  revert b a; induction s as [|x s IH]; intros b a; simpl.
  - discriminate.
  - destruct (ascii_dec c x) as [->|N].
    + rewrite Ascii.eqb_refl. destruct s; intros [= <- <-]; reflexivity.
    + destruct (Ascii.eqb x c) eqn:E.
      { apply Ascii.eqb_eq in E. congruence. }
      destruct (cut (String c "") s) as [[b' a']|]; [|discriminate].
      intros [= <- <-]. now rewrite (IH _ _ eq_refl).
Qed.

Lemma split_no_cut c s :
  cut (String c "") s = None -> split c s = [s].
Proof.
  induction s as [|x s IH]; simpl; [reflexivity|].
  destruct (ascii_dec c x) as [->|N].
  - destruct s; discriminate.
  - destruct (Ascii.eqb x c) eqn:E.
    { apply Ascii.eqb_eq in E. congruence. }
    destruct (cut (String c "") s) as [[b' a']|]; [discriminate|].
    intros _. now rewrite IH.
Qed.

Lemma char_at_truthy s :
  truthy s = true -> exists c t, s = String c t /\ char_at s 0 = Ok c.
Proof. destruct s as [|c t]; [discriminate | eauto]. Qed.

Lemma length_take n s : String.length (take n s) <= n.
Proof.
  revert s; induction n as [|n IH]; intros [|c s]; simpl; try lia.
  specialize (IH s). lia.
Qed.

Lemma length_append a b :
  String.length (a ++ b)%string = String.length a + String.length b.
Proof. induction a as [|x a IH]; simpl; [reflexivity | now rewrite IH]. Qed.

End PyFacts.

(** ** The parser: totality and the shape of one step *)

Module ParserFacts.
Import Py Parser PyFacts.

Lemma remove_numbering_total ls :
  exists t, remove_numbering ls = Ok t /\ substr ls t.
Proof.
  unfold remove_numbering.
  assert (T : forall x, substr ls x ->
              substr ls (strip (lstrip_chars "* " (lstrip_chars "- " x)))).
  { intros x Hx. eapply substr_trans; [exact Hx|].
    eapply substr_trans; [apply lstrip_by_substr|].
    eapply substr_trans; [apply lstrip_by_substr | apply strip_substr]. }
  destruct (contains ". " ls).
  - destruct (split1_last ". " ls) as (x & -> & Hx). simpl. eauto.
  - destruct (contains ") " ls).
    + destruct (split1_last ") " ls) as (x & -> & Hx). simpl. eauto.
    + simpl. eexists; split; [reflexivity | apply T, substr_refl].
Qed.

Lemma split_first_segment after :
  exists r, split "|" after = first_segment after :: r.
Proof.
  unfold first_segment. destruct (cut "|" after) as [[s a]|] eqn:E.
  - rewrite (split_cut _ _ _ _ E). eauto.
  - rewrite (split_no_cut _ _ E). eauto.
Qed.

Lemma marker_has_bar t :
  has_marker t = true -> exists before after, cut "|" t = Some (before, after).
Proof.
  intros H. apply cut_contains. apply contains_substr.
  apply orb_true_iff in H as [H|H]; apply contains_substr in H;
    destruct H as (p & q & ->).
  - exists p, (" ASSIGNEE:" ++ q)%string. reflexivity.
  - exists p, ("ASSIGNEE:" ++ q)%string. reflexivity.
Qed.

Lemma split_assignee_marked t before after :
  has_marker t = true ->
  cut "|" t = Some (before, after) ->
  split_assignee t =
    Ok (strip before,
        if is_header "ASSIGNEE:" (strip (first_segment after))
        then Some (strip (drop 9 (strip (first_segment after))))
        else None).
Proof.
  intros Hm Hc. unfold split_assignee. rewrite Hm.
  rewrite (split_cut _ _ _ _ Hc).
  destruct (split_first_segment after) as [r ->].
  cbn [bind item nth_error]. unfold is_header.
  destruct (startswith (upper (strip (first_segment after))) "ASSIGNEE:"); reflexivity.
Qed.

Lemma split_assignee_unmarked t :
  has_marker t = false -> split_assignee t = Ok (t, None).
Proof. intros Hm. unfold split_assignee. now rewrite Hm. Qed.

Lemma split_assignee_total t : exists ta, split_assignee t = Ok ta.
Proof.
  destruct (has_marker t) eqn:Hm.
  - destruct (marker_has_bar t Hm) as (b & a & Hc).
    rewrite (split_assignee_marked t b a Hm Hc). eauto.
  - rewrite (split_assignee_unmarked t Hm). eauto.
Qed.

(** A line of the action section leaves the locals alone or appends one
    item, whose task is not empty. *)
Lemma action_line_result st ls :
  truthy ls = true ->
  exists st', action_line st ls = Ok st' /\
    (st' = st \/ exists it, st' = push_item st it /\ truthy (task it) = true).
Proof.
  intros Ht. destruct (char_at_truthy ls Ht) as (c & t & -> & Hc).
  unfold action_line. rewrite Hc. cbn [bind].
  destruct (isdigit c || startswith (String c t) "-"); [|eauto].
  destruct (remove_numbering_total (String c t)) as (x & -> & _). cbn [bind].
  destruct (split_assignee_total x) as ([y a] & ->). cbn [bind].
  destruct (truthy y) eqn:Hy; eauto 7.
Qed.

Lemma step_total st line : exists st', step st line = Ok st'.
Proof.
  unfold step.
  destruct (is_header "TITLE:" (strip line)); [eauto|].
  destruct (is_header "SUMMARY:" (strip line)); [eauto|].
  destruct (is_header "ACTION ITEMS:" (strip line)); [eauto|].
  destruct (in_section st SecSummary && truthy (strip line)); [eauto|].
  destruct (in_section st SecActions && truthy (strip line)) eqn:E; [|eauto].
  apply andb_true_iff in E as [_ E].
  destruct (action_line_result st (strip line) E) as (st' & -> & _). eauto.
Qed.

Lemma loop_total lines : forall st, exists st', loop st lines = Ok st'.
Proof.
  induction lines as [|l lines IH]; intros st; simpl; [eauto|].
  destruct (step_total st l) as [st1 ->]. apply IH.
Qed.

(** What one step may change. *)
Lemma step_title st line st' :
  step st line = Ok st' ->
  is_header "TITLE:" (strip line) = false ->
  l_title st' = l_title st.
Proof.
  unfold step. intros H N. rewrite N in H.
  destruct (is_header "SUMMARY:" (strip line)); [now inversion H|].
  destruct (is_header "ACTION ITEMS:" (strip line)); [now inversion H|].
  destruct (in_section st SecSummary && truthy (strip line)); [now inversion H|].
  destruct (in_section st SecActions && truthy (strip line)) eqn:E; [|now inversion H].
  apply andb_true_iff in E as [_ E].
  destruct (action_line_result st (strip line) E) as (s & Hs & [->|(it & -> & _)]);
    rewrite Hs in H; now inversion H.
Qed.

Lemma step_summary st line st' :
  step st line = Ok st' ->
  is_header "SUMMARY:" (strip line) = false ->
  in_section st SecSummary = false ->
  in_section st' SecSummary = false /\ l_summary_lines st' = l_summary_lines st.
Proof.
  unfold step. intros H N S0. rewrite N, S0 in H. cbn [andb] in H.
  destruct (is_header "TITLE:" (strip line)); [now inversion H|].
  destruct (is_header "ACTION ITEMS:" (strip line)); [now inversion H|].
  destruct (in_section st SecActions && truthy (strip line)) eqn:E;
    [|inversion H; subst; auto].
  apply andb_true_iff in E as [_ E].
  destruct (action_line_result st (strip line) E) as (s & Hs & [->|(it & -> & _)]);
    rewrite Hs in H; inversion H; subst; auto.
Qed.

Lemma step_items st line st' :
  step st line = Ok st' ->
  Forall (fun it => truthy (task it) = true) (l_action_items st) ->
  Forall (fun it => truthy (task it) = true) (l_action_items st').
Proof.
  unfold step. intros H F.
  destruct (is_header "TITLE:" (strip line)); [inversion H; subst; exact F|].
  destruct (is_header "SUMMARY:" (strip line)); [inversion H; subst; exact F|].
  destruct (is_header "ACTION ITEMS:" (strip line)); [inversion H; subst; exact F|].
  destruct (in_section st SecSummary && truthy (strip line));
    [inversion H; subst; exact F|].
  destruct (in_section st SecActions && truthy (strip line)) eqn:E;
    [|inversion H; subst; exact F].
  apply andb_true_iff in E as [_ E].
  destruct (action_line_result st (strip line) E) as (s & Hs & [->|(it & -> & Hit)]);
    rewrite Hs in H; inversion H; subst; auto.
  simpl. apply Forall_app. split; auto.
Qed.

Lemma loop_title lines : forall st st',
  loop st lines = Ok st' ->
  Forall (fun l => is_header "TITLE:" (strip l) = false) lines ->
  l_title st' = l_title st.
Proof.
  induction lines as [|l lines IH]; intros st st' H F; simpl in H.
  - now inversion H.
  - inversion F as [|? ? Hl Hr]; subst.
    destruct (step st l) as [st1|e] eqn:E; [|discriminate]. cbn [bind] in H.
    rewrite (IH _ _ H Hr). eapply step_title; eauto.
Qed.

Lemma loop_summary lines : forall st st',
  loop st lines = Ok st' ->
  Forall (fun l => is_header "SUMMARY:" (strip l) = false) lines ->
  in_section st SecSummary = false ->
  l_summary_lines st' = l_summary_lines st.
Proof.
  induction lines as [|l lines IH]; intros st st' H F S0; simpl in H.
  - now inversion H.
  - inversion F as [|? ? Hl Hr]; subst.
    destruct (step st l) as [st1|e] eqn:E; [|discriminate]. cbn [bind] in H.
    destruct (step_summary _ _ _ E Hl S0) as [S1 L1].
    rewrite (IH _ _ H Hr S1). exact L1.
Qed.

Lemma loop_items lines : forall st st',
  loop st lines = Ok st' ->
  Forall (fun it => truthy (task it) = true) (l_action_items st) ->
  Forall (fun it => truthy (task it) = true) (l_action_items st').
Proof.
  induction lines as [|l lines IH]; intros st st' H F; simpl in H.
  - now inversion H; subst.
  - destruct (step st l) as [st1|e] eqn:E; [|discriminate]. cbn [bind] in H.
    eapply IH; [exact H|]. eapply step_items; eauto.
Qed.

(** A digit or a dash in front: the line is no section header. *)
Lemma bullet_char c :
  (isdigit c || Ascii.eqb c "-") = true ->
  upper_char c <> "T"%char /\ upper_char c <> "S"%char /\ upper_char c <> "A"%char.
Proof.
  destruct c as [[] [] [] [] [] [] [] []]; vm_compute; intros H;
    try discriminate H; repeat split; discriminate.
Qed.

Lemma startswith_dash c t :
  startswith (String c t) "-" = Ascii.eqb c "-".
Proof.
  unfold startswith. cbn [String.prefix].
  destruct (ascii_dec "-" c) as [<-|N].
  - now destruct t.
  - destruct (Ascii.eqb c "-") eqn:E; [|reflexivity].
    apply Ascii.eqb_eq in E. congruence.
Qed.

Lemma bullet_not_header c t :
  (isdigit c || startswith (String c t) "-") = true ->
  is_header "TITLE:" (String c t) = false /\
  is_header "SUMMARY:" (String c t) = false /\
  is_header "ACTION ITEMS:" (String c t) = false.
Proof.
  rewrite startswith_dash. intros H.
  destruct (bullet_char c H) as (NT & NS & NA).
  unfold is_header, startswith. cbn [upper String.prefix].
  destruct (ascii_dec "T" (upper_char c)); [congruence|].
  destruct (ascii_dec "S" (upper_char c)); [congruence|].
  destruct (ascii_dec "A" (upper_char c)); [congruence|]. auto.
Qed.

(** The step taken on a numbered or dashed line of the action section. *)
Lemma step_bullet st line c t :
  in_section st SecActions = true ->
  char_at (strip line) 0 = Ok c ->
  (isdigit c || startswith (strip line) "-") = true ->
  remove_numbering (strip line) = Ok t ->
  step st line =
    (ta <- split_assignee t ;;
     if truthy (fst ta) then Ok (push_item st (mkItem (fst ta) (snd ta))) else Ok st).
Proof.
  intros Hs Hc Hb Hr. unfold step.
  destruct (strip line) as [|c' ls] eqn:E; [discriminate|].
  assert (c' = c) as -> by (unfold char_at in Hc; simpl in Hc; congruence).
  destruct (bullet_not_header c ls Hb) as (-> & -> & ->).
  destruct (in_section st SecSummary) eqn:S1.
  { unfold in_section in *. destruct (l_current_section st) as [[]|]; discriminate. }
  rewrite Hs. cbn [andb truthy]. unfold action_line.
  rewrite Hc. cbn [bind]. rewrite Hb, Hr. cbn [bind].
  destruct (split_assignee t) as [[y a]|e]; reflexivity.
Qed.

End ParserFacts.

(** ** The parser: the specified behaviour *)

Module ParserSpec.
Import Py Parser PyFacts ParserFacts.

(** The action section takes a line as an item only when its stripped
    form starts with a digit or a dash. *)
Lemma item_only_from_bullet st line st' :
  step st line = Ok st' ->
  l_action_items st' <> l_action_items st ->
  in_section st SecActions = true /\
  exists c, char_at (strip line) 0 = Ok c /\
            (isdigit c || startswith (strip line) "-") = true.
Proof.
  unfold step. intros H N.
  destruct (is_header "TITLE:" (strip line)); [inversion H; subst; now elim N|].
  destruct (is_header "SUMMARY:" (strip line)); [inversion H; subst; now elim N|].
  destruct (is_header "ACTION ITEMS:" (strip line)); [inversion H; subst; now elim N|].
  destruct (in_section st SecSummary && truthy (strip line));
    [inversion H; subst; now elim N|].
  destruct (in_section st SecActions && truthy (strip line)) eqn:E;
    [|inversion H; subst; now elim N].
  apply andb_true_iff in E as [E1 E2]. split; [exact E1|].
  destruct (char_at_truthy _ E2) as (c & t & Es & Hc).
  exists c. split; [exact Hc|].
  unfold action_line in H. rewrite Hc in H. cbn [bind] in H.
  destruct (isdigit c || startswith (strip line) "-"); [reflexivity|].
  inversion H; subst; now elim N.
Qed.

(** C1 (the code departs from the claim).  Numbering removal is meant to
    take off a leading "1. ", "1) ", "- " or "* " and keep the rest of
    the task.  The code looks for ". " and ") " anywhere in the line: on
    the dashed line "- Fix login. Then deploy" it cuts at the full stop
    inside the task and keeps only "Then deploy", where stripping the
    first matching prefix pattern keeps "Fix login. Then deploy". *)
Theorem numbering_removal_drops_task_text :
  let line := "- Fix login. Then deploy" in
  remove_numbering line = Ok "Then deploy" /\
  PrefixPatterns.strip_prefix line = "Fix login. Then deploy" /\
  parse_content ("ACTION ITEMS:" ++ nl ++ line)%string =
    Ok (mkRecord default_title ("ACTION ITEMS:" ++ nl ++ line)%string
                 [mkItem "Then deploy" None]).
Proof. vm_compute. repeat split. Qed.



(** C3.  Parsing a completion never raises: it always returns a record.
    When no line is a TITLE: header the record has the placeholder title,
    and when no line is a SUMMARY: header its summary is the whole
    completion text. *)
Theorem parse_never_raises (content : string) :
  exists r,
    parse_content content = Ok r /\
    summary_of_content content = r /\
    (Forall (fun l => is_header "TITLE:" (strip l) = false) (split nl_char content) ->
     title r = default_title) /\
    (Forall (fun l => is_header "SUMMARY:" (strip l) = false) (split nl_char content) ->
     summary_html r = content).
Proof.
  unfold summary_of_content, parse_content.
  destruct (loop_total (split nl_char content) initial) as [st E].
  rewrite E. cbn [bind]. eexists. split; [reflexivity|]. split; [reflexivity|].
  cbn [title summary_html]. split; intros F.
  - apply (loop_title _ _ _ E F).
  - rewrite (loop_summary _ _ _ E F eq_refl). reflexivity.
Qed.

Lemma parse_never_raises_witness :
  let content := ("Sure! Here are the notes." ++ nl ++ "- | ASSIGNEE:" ++ nl ++ "9")%string in
  exists r, parse_content content = Ok r /\
            title r = "Meeting Summary & Transcript" /\ summary_html r = content.
Proof.
  intros content.
  destruct (parse_never_raises content) as (r & H1 & _ & H3 & H4).
  exists r. split; [exact H1|]. split.
  - apply H3. vm_compute. repeat constructor.
  - apply H4. vm_compute. repeat constructor.
Defined.

(** The split at the first bar.  When the text left by numbering removal
    carries the assignee marker, the task is the (whitespace-stripped) text before its first
    bar, and the assignee comes from the stripped segment between the
    first and the second bar only: if that segment starts with ASSIGNEE:
    in any letter case the assignee is what follows the label, otherwise
    the assignee is null; whatever else follows the first bar does not
    reach the item.  An empty task drops the line. *)
Theorem marked_line_splits_at_first_bar st line c t :
  in_section st SecActions = true ->
  char_at (strip line) 0 = Ok c ->
  (isdigit c || startswith (strip line) "-") = true ->
  remove_numbering (strip line) = Ok t ->
  has_marker t = true ->
  exists before after,
    cut "|" t = Some (before, after) /\
    let segment := strip (first_segment after) in
    let assignee :=
      if is_header "ASSIGNEE:" segment then Some (strip (drop 9 segment)) else None in
    step st line =
      Ok (if truthy (strip before)
          then push_item st (mkItem (strip before) assignee)
          else st).
Proof.
  intros Hs Hc Hb Hr Hm.
  destruct (marker_has_bar t Hm) as (before & after & Hcut).
  exists before, after. split; [exact Hcut|]. cbv zeta.
  rewrite (step_bullet st line c t Hs Hc Hb Hr).
  rewrite (split_assignee_marked t before after Hm Hcut). cbn [bind fst snd].
  destruct (truthy (strip before)); reflexivity.
Qed.

(** C9 (the code departs from the claim).  On the action line
    "2) Email the vendor | ASSIGNEE: J. Smith" the marker is present, the
    text before the first bar of the line without its "2) " prefix is
    "Email the vendor" and the segment after it names J. Smith.  The code
    cuts the line at the ". " inside the name first, keeps "Smith", finds
    no marker in it and returns the task "Smith" without assignee.  The
    dashed line "- Ping ops | ASSIGNEE: Bo. cc sec | urgent" ends as the
    task "cc sec | urgent" in the same way. *)
Theorem marker_lost_to_numbering_removal :
  let line := "2) Email the vendor | ASSIGNEE: J. Smith" in
  let dashed := "- Ping ops | ASSIGNEE: Bo. cc sec | urgent" in
  has_marker line = true /\
  PrefixPatterns.strip_prefix line = "Email the vendor | ASSIGNEE: J. Smith"%string /\
  cut "|" (PrefixPatterns.strip_prefix line) =
    Some ("Email the vendor "%string, " ASSIGNEE: J. Smith"%string) /\
  remove_numbering line = Ok "Smith"%string /\
  parse_content ("ACTION ITEMS:" ++ nl ++ line)%string =
    Ok (mkRecord default_title ("ACTION ITEMS:" ++ nl ++ line)%string
                 [mkItem "Smith" None]) /\
  has_marker dashed = true /\
  parse_content ("ACTION ITEMS:" ++ nl ++ dashed)%string =
    Ok (mkRecord default_title ("ACTION ITEMS:" ++ nl ++ dashed)%string
                 [mkItem "cc sec | urgent" None]).
Proof. vm_compute. repeat split. Qed.

End ParserSpec.

(** ** Running computations over the remote *)

Module RunFacts.
Import Py Parser Remote Fetcher Traces.

Section Run.
Context {W : Type}.

Lemma run_eta {A} (x : A * W * list Event) : x = (result x, world x, trace x).
Proof. now destruct x as [[a w] t]. Qed.

Lemma mbind_run {A B} (m : M W A) (k : A -> M W B) (w : W) :
  mbind m k w =
    (result (k (result (m w)) (world (m w))),
     world (k (result (m w)) (world (m w))),
     trace (m w) ++ trace (k (result (m w)) (world (m w)))).
Proof.
  unfold mbind. destruct (m w) as [[a w1] t1]. cbn [result world trace fst snd].
  now destruct (k a w1) as [[b w2] t2].
Qed.

Lemma call_run {Q R} (h : Q -> W -> R * W) (ev : Q -> R -> Event) (q : Q) (w : W) :
  call h ev q w = (fst (h q w), snd (h q w), [ev q (fst (h q w))]).
Proof. unfold call. now destruct (h q w). Qed.

Lemma ret_run {A} (a : A) (w : W) : ret a w = (a, w, []).
Proof. reflexivity. Qed.

End Run.

Lemma app_cons_inv {A} (c rest : list A) : forall pre e post,
  c ++ rest = pre ++ e :: post ->
  (exists b, c = pre ++ e :: b /\ post = b ++ rest) \/
  (exists a, pre = c ++ a /\ rest = a ++ e :: post).
Proof.
  induction c as [|x c IH]; intros pre e post H; simpl in H.
  - right. now exists pre.
  - destruct pre as [|y pre]; simpl in H; inversion H; subst.
    + left. now exists c.
    + destruct (IH _ _ _ H2) as [(b & -> & ->)|(a & -> & ->)].
      * left. now exists b.
      * right. now exists a.
Qed.

(** An element of a concatenation lies in one of its chunks. *)
Lemma concat_cons_inv {A} (chunks : list (list A)) : forall pre e post,
  concat chunks = pre ++ e :: post ->
  exists before chunk after a b,
    chunks = before ++ chunk :: after /\ chunk = a ++ e :: b /\
    pre = concat before ++ a /\ post = b ++ concat after.
Proof.
  induction chunks as [|c chunks IH]; intros pre e post H; simpl in H.
  - now destruct pre.
  - destruct (app_cons_inv _ _ _ _ _ H) as [(b & -> & ->)|(a & -> & Hr)].
    + exists [], (pre ++ e :: b), chunks, pre, b. repeat split.
    + destruct (IH _ _ _ Hr) as (bf & ch & af & a' & b & -> & -> & -> & ->).
      exists (c :: bf), (a' ++ e :: b), af, a', b.
      repeat split. simpl. now rewrite app_assoc.
Qed.

Lemma issue_requests_app t1 t2 :
  issue_requests (t1 ++ t2) = issue_requests t1 ++ issue_requests t2.
Proof.
  induction t1 as [|e t1 IH]; simpl; [reflexivity|].
  destruct e; simpl; now rewrite IH.
Qed.

Lemma create_requests_app t1 t2 :
  create_requests (t1 ++ t2) = create_requests t1 ++ create_requests t2.
Proof.
  induction t1 as [|e t1 IH]; simpl; [reflexivity|].
  destruct e; simpl; now rewrite IH.
Qed.

End RunFacts.

(** ** The permission probe *)

Module ProbeSpec.
Import Py Parser Remote Fetcher Traces RunFacts.

Section Probe.
Context {W : Type} {SV : Services W}.

Lemma probe_pages_cons space_key page rest w :
  let q := test_data space_key (page_id page) in
  let r := fst (content_create q w) in
  let w1 := snd (content_create q w) in
  probe_pages space_key (page :: rest) w =
    if created (create_status r)
    then (Some (page_id page), snd (content_delete (created_id r) w1),
          [EvCreate q r;
           EvDelete (created_id r) (fst (content_delete (created_id r) w1))])
    else (result (probe_pages space_key rest w1),
          world (probe_pages space_key rest w1),
          EvCreate q r :: trace (probe_pages space_key rest w1)).
Proof.
  cbv zeta. cbn [probe_pages]. rewrite mbind_run, call_run.
  cbn [result world trace fst snd].
  destruct (created (create_status (fst (content_create _ w)))).
  - rewrite mbind_run, call_run. reflexivity.
  - reflexivity.
Qed.

(** The loop tries the candidates in listed order and stops at the first
    one that accepts. *)
Lemma probe_pages_shape space_key pages : forall w,
  let out := probe_pages space_key pages w in
  exists rejected tail,
    trace out = rejected ++ tail /\
    Forall2 (rejected_probe space_key) (firstn (length rejected) pages) rejected /\
    ((tail = [] /\ length rejected = length pages /\ result out = None) \/
     (exists p r d,
         nth_error pages (length rejected) = Some p /\
         tail = [EvCreate (test_data space_key (page_id p)) r;
                 EvDelete (created_id r) d] /\
         created (create_status r) = true /\
         result out = Some (page_id p))).
Proof.
  induction pages as [|page rest IH]; intros w; cbv zeta.
  - exists [], []. repeat split; [constructor | now left].
  - rewrite probe_pages_cons.
    destruct (created (create_status (fst (content_create _ w)))) eqn:E.
    + exists []. eexists. split; [reflexivity|]. split; [constructor|].
      right. exists page. do 2 eexists. repeat split. exact E.
    + destruct (IH (snd (content_create (test_data space_key (page_id page)) w)))
        as (rej & tail & Ht & Hf & Hcase).
      exists (EvCreate (test_data space_key (page_id page))
                (fst (content_create (test_data space_key (page_id page)) w)) :: rej),
             tail.
      cbn [trace result snd fst]. split; [simpl; now rewrite <- Ht|].
      split.
      * simpl. constructor; [|exact Hf]. eexists. split; [reflexivity | exact E].
      * destruct Hcase as [(-> & Hl & Hr)|(p & r & d & Hn & -> & Ha & Hr)].
        -- left. repeat split; [simpl; now rewrite Hl | exact Hr].
        -- right. exists p, r, d. repeat split; assumption.
Qed.

Lemma probe_pages_tries space_key pages : forall w,
  length (create_requests (trace (probe_pages space_key pages w))) <= length pages.
Proof.
  induction pages as [|page rest IH]; intros w.
  - simpl. lia.
  - rewrite probe_pages_cons.
    destruct (created (create_status (fst (content_create _ w)))).
    + simpl. lia.
    + cbn [trace snd create_requests length]. specialize (IH (snd (content_create
        (test_data space_key (page_id page)) w))). lia.
Qed.

Lemma find_valid_parent_pages_run space_key w :
  let q := search_params space_key in
  let listing := fst (content_search q w) in
  let w1 := snd (content_search q w) in
  find_valid_parent_pages space_key w =
    if (search_status listing =? 200)%Z
    then (result (probe_pages space_key (search_results listing) w1),
          world (probe_pages space_key (search_results listing) w1),
          EvSearch q listing :: trace (probe_pages space_key (search_results listing) w1))
    else (None, w1, [EvSearch q listing]).
Proof.
  cbv zeta. unfold find_valid_parent_pages. rewrite mbind_run, call_run.
  cbn [result world trace fst snd].
  destruct (search_status (fst (content_search _ w)) =? 200)%Z; reflexivity.
Qed.

(** C4, as the code has it.  The probe asks the listing for at most 10
    documents and then goes through the documents the listing returned,
    without cutting that list itself.  If the listing call fails it
    returns null after that one call.  Otherwise it tries a test-page
    create under each listed candidate in listed order; every try before
    the last was rejected; either all candidates were rejected and the
    result is null, or the last try was accepted, the test page is then
    deleted, whatever status the deletion returns, nothing else is tried,
    and the result is that candidate's identifier.  There are never more
    creates than listed documents, hence no more than 10 when the listing
    honours the requested limit. *)
Theorem probe_returns_first_writable space_key w :
  let q := search_params space_key in
  let listing := fst (content_search q w) in
  let out := find_valid_parent_pages space_key w in
  search_limit q = 10 /\
  (search_status listing <> 200%Z ->
   trace out = [EvSearch q listing] /\ result out = None) /\
  (search_status listing = 200%Z ->
   exists rejected tail,
     trace out = EvSearch q listing :: rejected ++ tail /\
     Forall2 (rejected_probe space_key)
             (firstn (length rejected) (search_results listing)) rejected /\
     ((tail = [] /\ length rejected = length (search_results listing) /\
       result out = None) \/
      (exists p r d,
          nth_error (search_results listing) (length rejected) = Some p /\
          tail = [EvCreate (test_data space_key (page_id p)) r;
                  EvDelete (created_id r) d] /\
          created (create_status r) = true /\
          result out = Some (page_id p)))) /\
  length (create_requests (trace out)) <= length (search_results listing) /\
  (length (search_results listing) <= search_limit q ->
   length (create_requests (trace out)) <= 10).
Proof.
  cbv zeta. rewrite find_valid_parent_pages_run.
  split; [reflexivity|]. split; [|split].
  - intros N. apply Z.eqb_neq in N. rewrite N. split; reflexivity.
  - intros E. apply Z.eqb_eq in E. rewrite E. cbn [trace result fst snd].
    destruct (probe_pages_shape space_key
                (search_results (fst (content_search (search_params space_key) w)))
                (snd (content_search (search_params space_key) w)))
      as (rej & tail & Ht & Hf & Hcase).
    exists rej, tail. split; [now rewrite Ht|]. split; assumption.
  - pose proof (probe_pages_tries space_key
                  (search_results (fst (content_search (search_params space_key) w)))
                  (snd (content_search (search_params space_key) w))) as T.
    destruct (search_status (fst (content_search _ w)) =? 200)%Z;
      cbn [trace snd create_requests length search_limit search_params];
      (split; [|intros L]); lia.
Qed.

(** The summary publish after a rejected root creation: with no writable
    parent it stops there and reports failure. *)
Lemma create_confluence_page_no_parent cfg ttl content w :
  let data := mkCreate ttl (space_key cfg) None content in
  let r0 := fst (content_create data w) in
  let probe := find_valid_parent_pages (space_key cfg) (snd (content_create data w)) in
  created (create_status r0) = false ->
  result probe = None ->
  create_confluence_page cfg ttl content w =
    (None, world probe, EvCreate data r0 :: trace probe).
Proof.
  cbv zeta. intros Hr Hp. unfold create_confluence_page.
  rewrite mbind_run, call_run. cbn [result world trace fst snd].
  rewrite mbind_run. rewrite Hr. cbn [negb].
  rewrite mbind_run, Hp. cbn. now rewrite !app_nil_r.
Qed.

End Probe.

Lemma probe_returns_first_writable_witness :
  result (find_valid_parent_pages (SV := Demo.services) "ENG" tt) = Some 12%N /\
  length (create_requests (trace (find_valid_parent_pages (SV := Demo.services) "ENG" tt)))
    <= 10.
Proof.
  destruct (probe_returns_first_writable (SV := Demo.services) "ENG" tt)
    as (_ & _ & Hshape & _ & Hbound).
  split.
  - destruct (Hshape eq_refl) as (rej & tail & _ & _ & [(_ & _ & Hn)|(p & r & d & _ & _ & _ & Hs)]).
    + vm_compute in Hn. discriminate Hn.
    + vm_compute. reflexivity.
  - apply Hbound. vm_compute. lia.
Defined.

(** C4 as written fails: the candidates are not capped at 10.  A listing
    that returns eleven documents, none of them writable, gets eleven test
    creates, although the request asked for 10. *)
Lemma eleven_listed_eleven_tried :
  let out := find_valid_parent_pages (SV := Scenarios.crowded) "ENG" tt in
  search_limit (search_params "ENG") = 10 /\
  length (create_requests (trace out)) = 11 /\
  map create_ancestor (create_requests (trace out)) =
    map (fun n => Some (Z.of_nat n)) [1; 2; 3; 4; 5; 6; 7; 8; 9; 10; 11] /\
  result out = None.
Proof. vm_compute. repeat split. Qed.

End ProbeSpec.

(** ** Work items *)

Module TicketSpec.
Import Py Parser PyFacts ParserFacts Remote Fetcher Traces RunFacts.

Section Tickets.
Context {W : Type} {SV : Services W}.

Lemma get_jira_user_by_name_run name w :
  let found := fst (user_search name w) in
  get_jira_user_by_name name w =
    (if (users_status found =? 200)%Z
     then match users_account_ids found with
          | account_id :: _ => Some account_id
          | [] => None
          end
     else None,
     snd (user_search name w), [EvUserSearch name found]).
Proof.
  cbv zeta. unfold get_jira_user_by_name. rewrite mbind_run, call_run.
  cbn [result world trace fst snd].
  destruct (users_status (fst (user_search name w)) =? 200)%Z; [|reflexivity].
  destruct (users_account_ids (fst (user_search name w))); reflexivity.
Qed.

(** No assignee name: no directory call.  A name: one search, and an
    account only when the search succeeds with a first match. *)
Lemma resolve_assignee_run assignee_name w :
  let out := resolve_assignee assignee_name w in
  (truthy_opt assignee_name = false /\ out = (None, w, [])) \/
  (exists name,
      assignee_name = Some name /\ truthy name = true /\
      let found := fst (user_search name w) in
      trace out = [EvUserSearch name found] /\
      world out = snd (user_search name w) /\
      ((users_status found <> 200%Z \/ users_account_ids found = []) ->
       result out = None) /\
      (forall a rest, users_status found = 200%Z ->
                      users_account_ids found = a :: rest -> truthy a = true ->
                      result out = Some a)).
Proof.
  cbv zeta. unfold resolve_assignee.
  destruct (truthy_opt assignee_name) eqn:T; [right | now left].
  destruct assignee_name as [name|]; [|discriminate].
  exists name. split; [reflexivity|]. split; [exact T|].
  rewrite mbind_run, get_jira_user_by_name_run. cbn [result world trace fst snd].
  set (found := fst (user_search name w)).
  destruct (users_status found =? 200)%Z eqn:E200.
  - destruct (users_account_ids found) as [|a0 rest0] eqn:Eids.
    + cbn. repeat split; auto. intros a rest _ [=].
    + cbn [truthy_opt]. destruct (truthy a0) eqn:Ta.
      * cbn. repeat split; auto.
        -- intros [N|[=]]. apply Z.eqb_eq in E200. contradiction.
        -- intros a rest _ [= <- <-] _. reflexivity.
      * cbn. repeat split; auto. intros a rest _ [= <- <-] Ha. congruence.
  - cbn. repeat split; auto. intros a rest E. apply Z.eqb_neq in E200. contradiction.
Qed.

Lemma create_jira_ticket_run summary description project issue_type assignee_name sprint w :
  let o := resolve_assignee assignee_name w in
  let q := mkIssue project summary description issue_type (result o) in
  let r := fst (issue_create q (world o)) in
  create_jira_ticket summary description project issue_type assignee_name sprint w =
    (if created (issue_status r) then Some r else None,
     snd (issue_create q (world o)),
     trace o ++ [EvIssue q r]).
Proof.
  cbv zeta. unfold create_jira_ticket. rewrite mbind_run, mbind_run, call_run.
  cbn [result world trace fst snd].
  destruct (created (issue_status _)); reflexivity.
Qed.

Lemma create_jira_ticket_attempt cfg title link it w :
  ticket_attempt cfg title link it
    (trace (create_jira_ticket (ticket_summary (task it))
              (ticket_description title (task it) link)
              (project_key cfg) "Task" (assignee it) None w)).
Proof.
  rewrite create_jira_ticket_run. cbn [trace snd].
  destruct (resolve_assignee_run (assignee it) w)
    as [(T & ->)|(name & E & T & Ht & Hw & Hfail & Hok)].
  - left. split; [exact T|]. eexists. reflexivity.
  - right. exists name. do 3 eexists.
    split; [exact E|]. split; [exact T|].
    split; [rewrite Ht; reflexivity|]. split; [exact Hfail | exact Hok].
Qed.

Lemma create_tickets_cons cfg title link it rest acc w :
  let o := create_jira_ticket (ticket_summary (task it))
             (ticket_description title (task it) link)
             (project_key cfg) "Task" (assignee it) None w in
  trace (create_tickets cfg title link (it :: rest) acc w) =
    trace o ++
    trace (create_tickets cfg title link rest
             (match result o with
              | Some r => acc ++ [issue_key r]
              | None => acc
              end) (world o)).
Proof. cbv zeta. cbn [create_tickets]. now rewrite mbind_run. Qed.

Lemma create_tickets_chunks cfg title link items : forall acc w,
  exists chunks,
    trace (create_tickets cfg title link items acc w) = concat chunks /\
    Forall2 (ticket_attempt cfg title link) items chunks.
Proof.
  induction items as [|it rest IH]; intros acc w.
  - exists []. split; [reflexivity | constructor].
  - rewrite create_tickets_cons.
    edestruct IH as (chunks & -> & F).
    eexists (_ :: chunks). split; [reflexivity|].
    constructor; [apply create_jira_ticket_attempt | exact F].
Qed.

Lemma ticket_attempt_requests cfg title link it chunk :
  ticket_attempt cfg title link it chunk ->
  map issue_summary (issue_requests chunk) = [ticket_summary (task it)].
Proof.
  intros [(_ & r & ->)|(name & found & account & r & _ & _ & -> & _)]; reflexivity.
Qed.

Lemma chunks_requests cfg title link items chunks :
  Forall2 (ticket_attempt cfg title link) items chunks ->
  map issue_summary (issue_requests (concat chunks)) =
  map (fun it => ticket_summary (task it)) items.
Proof.
  induction 1 as [|it chunk items chunks H _ IH]; [reflexivity|].
  simpl. rewrite issue_requests_app, map_app, IH.
  now rewrite (ticket_attempt_requests _ _ _ _ _ H).
Qed.

(** C5.  The ticket loop makes, for every action item and in record
    order, one attempt: a directory search when the item names an
    assignee, and then a creation request whatever the search and the
    earlier creations returned.  When the search fails or finds nobody
    the request is submitted without an assignee.  So the creation
    requests of the run are exactly one per item, in order. *)
Theorem every_item_is_attempted cfg title link items acc w :
  let tr := trace (create_tickets cfg title link items acc w) in
  (exists chunks,
      tr = concat chunks /\ Forall2 (ticket_attempt cfg title link) items chunks) /\
  map issue_summary (issue_requests tr) =
    map (fun it => ticket_summary (task it)) items.
Proof.
  cbv zeta. destruct (create_tickets_chunks cfg title link items acc w) as (chunks & E & F).
  split; [now exists chunks|]. rewrite E. eapply chunks_requests; eauto.
Qed.

Lemma ticket_summary_length task :
  String.length (ticket_summary task) <= 100.
Proof.
  unfold ticket_summary. destruct (100 <? String.length task) eqn:E.
  - rewrite length_append. pose proof (length_take 97 task).
    change (String.length "...") with 3. lia.
  - apply Nat.ltb_ge in E. exact E.
Qed.

(** C8, as the code has it.  Every parsed action item has a non-empty
    task, of any length; the 100-character limit applies to the summary
    of the creation request, which is the task when the task has at most
    100 characters and otherwise its first 97 characters followed by
    "...", and which is what the ticket loop submits for each item. *)
Theorem summary_is_truncated_task :
  (forall content r, parse_content content = Ok r ->
     Forall (fun it => task it <> ""%string) (action_items r)) /\
  (forall task,
     ticket_summary task =
       (if String.length task <=? 100 then task else (take 97 task ++ "...")%string) /\
     String.length (ticket_summary task) <= 100) /\
  (forall cfg title link items acc w,
     map issue_summary
         (issue_requests (trace (create_tickets cfg title link items acc w))) =
     map (fun it => ticket_summary (task it)) items).
Proof.
  split; [|split].
  - intros content r H. unfold parse_content in H.
    destruct (loop initial (split nl_char content)) as [st|e] eqn:E; [|discriminate].
    cbn [bind] in H. inversion H; subst. cbn [action_items].
    assert (F : Forall (fun it => truthy (task it) = true) (l_action_items st)).
    { eapply loop_items; [exact E | constructor]. }
    eapply Forall_impl; [|exact F].
    intros it Hit Hn. cbv beta in Hit. rewrite Hn in Hit. discriminate.
  - intros task. split; [|apply ticket_summary_length].
    unfold ticket_summary. rewrite Nat.ltb_antisym.
    now destruct (String.length task <=? 100).
  - intros cfg ttl link items acc w.
    destruct (create_tickets_chunks cfg ttl link items acc w) as (chunks & E & F).
    rewrite E. eapply chunks_requests; eauto.
Qed.

End Tickets.

Lemma summary_is_truncated_task_witness :
  Forall (fun it => task it <> ""%string)
         [mkItem "Write the design note" (Some "Eyal");
          mkItem "Fix the retry bug" (Some "Maya");
          mkItem "Archive the old board" None].
Proof.
  exact (proj1 (summary_is_truncated_task (SV := Demo.services))
               Demo.completion _ eq_refl).
Defined.

(** Three items on the scripted remote: the first creation is refused and
    its assignee is unknown, the other two items are still submitted. *)
Example tickets_on_demo :
  let out := create_tickets (SV := Demo.services) Demo.cfg "Retry work" "N/A" Demo.items [] tt in
  map (fun q => (issue_summary q, issue_assignee q)) (issue_requests (trace out)) =
    [("Write the design note", None); ("Fix the retry bug", Some "acc-maya");
     ("Archive the old board", None)] /\
  result out = ["DUB-7"; "DUB-7"].
Proof. vm_compute. split; reflexivity. Qed.

(** C8 as written fails: the parser keeps a task of 101 characters whole. *)
Lemma parsed_task_is_not_truncated :
  parse_content ("ACTION ITEMS:" ++ nl ++ "- " ++ Demo.long_task)%string =
    Ok (mkRecord default_title ("ACTION ITEMS:" ++ nl ++ "- " ++ Demo.long_task)%string
                 [mkItem Demo.long_task None]) /\
  String.length Demo.long_task = 101.
Proof. vm_compute. split; reflexivity. Qed.

End TicketSpec.

(** ** Per-engineer log updates *)

Module LogSpec.
Import Py Parser Remote Fetcher Traces RunFacts.

Section Logs.
Context {W : Type} {SV : Services W}.

(** The three ways through the loop body. *)
Lemma update_engineer_page_run cfg transcript meeting_title name page_id w :
  let q := contribution_request name transcript in
  let r := fst (openai_chat q w) in
  let w1 := snd (openai_chat q w) in
  let g := fst (page_get page_id w1) in
  let w2 := snd (page_get page_id w1) in
  let p := mkPut page_id "current" (title_of (get_page g))
             (current_body (get_page g) ++
              new_section meeting_title (today cfg) (chat_content r))%string
             (version_number (get_page g) + 1)%Z in
  update_engineer_page cfg transcript meeting_title (name, page_id) w =
    if no_contribution r then (tt, w1, [EvChat q r])
    else if negb (get_status g =? 200)%Z then (tt, w2, [EvChat q r; EvGet page_id g])
    else (tt, snd (page_put p w2),
          [EvChat q r; EvGet page_id g; EvPut p (fst (page_put p w2))]).
Proof.
  cbv zeta. unfold update_engineer_page. rewrite mbind_run, call_run.
  cbn [result world trace fst snd].
  destruct (no_contribution (fst (openai_chat _ w))); [reflexivity|].
  rewrite mbind_run, call_run. cbn [result world trace fst snd].
  destruct (negb (get_status (fst (page_get page_id _)) =? 200)%Z); [reflexivity|].
  rewrite mbind_run, call_run. reflexivity.
Qed.

Lemma update_engineer_page_shape cfg transcript meeting_title entry w :
  person_update cfg transcript meeting_title entry
    (trace (update_engineer_page cfg transcript meeting_title entry w)).
Proof.
  destruct entry as [name page_id]. rewrite update_engineer_page_run.
  unfold person_update. cbn [fst snd].
  destruct (no_contribution (fst (openai_chat _ w))) eqn:E.
  - left. eexists. split; [exact E | reflexivity].
  - right. destruct (get_status (fst (page_get page_id _)) =? 200)%Z eqn:G.
    + right. do 3 eexists. split; [exact E|]. split; [|reflexivity].
      now apply Z.eqb_eq.
    + left. do 2 eexists. split; [exact E|]. split; [|reflexivity].
      now apply Z.eqb_neq.
Qed.

Lemma for_each_cons {A} (body : A -> M W unit) x rest w :
  for_each body (x :: rest) w =
    (tt, world (for_each body rest (world (body x w))),
     trace (body x w) ++ trace (for_each body rest (world (body x w)))).
Proof.
  cbn [for_each]. rewrite mbind_run. f_equal. f_equal.
  now destruct (result (for_each body rest (world (body x w)))).
Qed.

Lemma for_each_app {A} (body : A -> M W unit) l1 l2 : forall w,
  for_each body (l1 ++ l2) w =
    (tt, world (for_each body l2 (world (for_each body l1 w))),
     trace (for_each body l1 w) ++ trace (for_each body l2 (world (for_each body l1 w)))).
Proof.
  induction l1 as [|x l1 IH]; intros w.
  - cbn. rewrite (run_eta (for_each body l2 w)) at 1.
    now destruct (result (for_each body l2 w)).
  - rewrite <- app_comm_cons, !for_each_cons, IH.
    cbn [world trace fst snd]. now rewrite app_assoc.
Qed.

Lemma for_each_chunks cfg transcript meeting_title roster : forall w,
  exists chunks,
    trace (for_each (update_engineer_page cfg transcript meeting_title) roster w)
      = concat chunks /\
    Forall2 (person_update cfg transcript meeting_title) roster chunks.
Proof.
  induction roster as [|entry rest IH]; intros w.
  - exists []. split; [reflexivity | constructor].
  - rewrite for_each_cons. cbn [trace snd].
    edestruct IH as (chunks & -> & F).
    eexists (_ :: chunks). split; [reflexivity|].
    constructor; [apply update_engineer_page_shape | exact F].
Qed.

Lemma update_engineer_pages_chunks roster cfg transcript meeting_title w :
  exists chunks,
    trace (update_engineer_pages_of roster cfg transcript meeting_title w)
      = concat chunks /\
    Forall2 (person_update cfg transcript meeting_title)
            (firstn (length chunks) roster) chunks.
Proof.
  unfold update_engineer_pages_of. destruct roster as [|e rest].
  - exists []. split; [reflexivity | constructor].
  - destruct (negb (truthy_opt (api_key cfg))).
    + exists []. split; [reflexivity | constructor].
    + destruct (for_each_chunks cfg transcript meeting_title (e :: rest) w)
        as (chunks & E & F).
      exists chunks. split; [exact E|].
      rewrite <- (Forall2_length F), firstn_all. exact F.
Qed.

(** C6.  Every update request of a run comes right after the contribution
    request and the read of the same document; its body is the body read
    (empty when the document carries none) followed by a newline, the
    heading "<h3>meeting title - date</h3>", a newline, the contribution
    text and a newline; and its version number is the version number read
    (1 when the document carries none) plus one. *)
Theorem update_appends_and_bumps_version roster cfg transcript meeting_title w
    pre p status post :
  trace (update_engineer_pages_of roster cfg transcript meeting_title w)
    = pre ++ EvPut p status :: post ->
  exists pre' q r g,
    pre = pre' ++ [EvChat q r; EvGet (put_id p) g] /\
    get_status g = 200%Z /\
    put_body p =
      ((match doc_body (get_page g) with Some b => b | None => EmptyString end) ++
       nl ++ "<h3>" ++ meeting_title ++ " - " ++ today cfg ++ "</h3>" ++ nl ++
       chat_content r ++ nl)%string /\
    put_version p =
      ((match doc_version (get_page g) with Some v => v | None => 1 end) + 1)%Z.
Proof.
  intros H.
  destruct (update_engineer_pages_chunks roster cfg transcript meeting_title w)
    as (chunks & E & F).
  rewrite E in H.
  destruct (concat_cons_inv _ _ _ _ H) as (bf & ch & af & a & b & -> & -> & -> & ->).
  apply Forall2_app_inv_r in F as (l1 & l2 & _ & F2 & _).
  inversion F2 as [|entry ? ? ? Hp _]; subst.
  destruct Hp as [(r & _ & Hc)|[(r & g & _ & _ & Hc)|(r & g & s & _ & G & Hc)]].
  - destruct a as [|? [|? ?]]; discriminate Hc.
  - destruct a as [|? [|? [|? ?]]]; discriminate Hc.
  - destruct a as [|e1 [|e2 [|e3 a]]]; try discriminate Hc.
    + inversion Hc; subst.
      exists (concat bf), (contribution_request (fst entry) transcript), r, g.
      repeat split; auto.
    + destruct a; discriminate Hc.
Qed.

(** C7, as the code has it.  Without a usable API key nothing at all is
    done for any person.  A person for whom the extraction answers the
    sentinel NONE is skipped right after that answer: the only call made
    for that person is the extraction request, so the document is
    neither read nor written. *)
Theorem sentinel_skips_before_read :
  (forall roster cfg transcript meeting_title w,
     truthy_opt (api_key cfg) = false ->
     update_engineer_pages_of roster cfg transcript meeting_title w = (tt, w, [])) /\
  (forall cfg transcript meeting_title name page_id w,
     let q := contribution_request name transcript in
     chat_content (fst (openai_chat q w)) = "NONE"%string ->
     update_engineer_page cfg transcript meeting_title (name, page_id) w =
       (tt, snd (openai_chat q w), [EvChat q (fst (openai_chat q w))])).
Proof.
  split.
  - intros roster cfg transcript meeting_title w H.
    unfold update_engineer_pages_of. rewrite H. now destruct roster.
  - intros cfg transcript meeting_title name page_id w q H.
    rewrite update_engineer_page_run. fold q.
    unfold no_contribution. rewrite H.
    replace (contains "NONE" "NONE") with true by reflexivity.
    now rewrite orb_true_r.
Qed.

(** C10.  Whenever the extraction call for a person returns a status
    other than 200, or a text that has NONE anywhere inside it, the run
    makes that one call for the person and moves on: the persons before
    and after are processed as they would be anyway. *)
Theorem skipped_on_failure_or_none cfg transcript meeting_title
    before name page_id after w :
  let body := update_engineer_page cfg transcript meeting_title in
  let o1 := for_each body before w in
  let q := contribution_request name transcript in
  let r := fst (openai_chat q (world o1)) in
  let o2 := for_each body after (snd (openai_chat q (world o1))) in
  truthy_opt (api_key cfg) = true ->
  (chat_status r <> 200%Z \/ contains "NONE" (chat_content r) = true) ->
  update_engineer_pages_of (before ++ (name, page_id) :: after)
                           cfg transcript meeting_title w =
    (tt, world o2, trace o1 ++ EvChat q r :: trace o2).
Proof.
  cbv zeta. intros K H.
  unfold update_engineer_pages_of. rewrite K. cbn [negb].
  assert (N : no_contribution
                (fst (openai_chat (contribution_request name transcript)
                        (world (for_each (update_engineer_page cfg transcript
                                            meeting_title) before w)))) = true).
  { unfold no_contribution. destruct H as [H|H].
    - apply Z.eqb_neq in H. now rewrite H.
    - rewrite H. apply orb_true_r. }
  destruct (before ++ (name, page_id) :: after) eqn:E.
  { now destruct before. }
  rewrite <- E. rewrite for_each_app, for_each_cons, update_engineer_page_run, N.
  reflexivity.
Qed.

End Logs.

Lemma update_appends_and_bumps_version_witness :
  exists p,
    In (EvPut p 200%Z)
       (trace (update_engineer_pages (SV := Demo.services) Demo.cfg "notes" "Retry work" tt)) /\
    put_body p =
      ("<p>old</p>" ++ nl ++ "<h3>Retry work - March 03, 2025</h3>" ++ nl ++
       "<ul><li>Reviewed the retry patch</li></ul>" ++ nl)%string /\
    put_version p = 8%Z.
Proof.
  pose (tr := trace (update_engineer_pages (SV := Demo.services)
                       Demo.cfg "notes" "Retry work" tt)).
  assert (E : exists p, tr = firstn 3 tr ++ EvPut p 200%Z :: skipn 4 tr)
    by (vm_compute; eauto).
  destruct E as (p & E).
  destruct (update_appends_and_bumps_version (SV := Demo.services)
              ENGINEER_PAGES Demo.cfg "notes" "Retry work" tt _ p _ _ E)
    as (pre' & q & r & g & Hpre & _ & Hb & Hv).
  assert (Hg : g = mkGetResp 200 (mkDoc (Some "Log") (Some "<p>old</p>") (Some 7%Z)) /\
               r = mkChatResp 200 "" "<ul><li>Reviewed the retry patch</li></ul>").
  { vm_compute in Hpre. apply (f_equal (@rev Event)) in Hpre.
    rewrite rev_app_distr in Hpre. cbn [rev app] in Hpre.
    injection Hpre as _ Hr Hgg. split; congruence. }
  destruct Hg as [-> ->].
  exists p. split; [|split].
  - fold tr. rewrite E. apply in_or_app. right. left. reflexivity.
  - rewrite Hb. reflexivity.
  - rewrite Hv. reflexivity.
Defined.

Lemma sentinel_skips_before_read_witness :
  trace (update_engineer_page (SV := Demo.services) Demo.cfg "notes" "Retry work"
           ("GUY", "491638") tt)
  = [EvChat (contribution_request "GUY" "notes") (mkChatResp 200 "" "NONE")].
Proof.
  rewrite (proj2 (sentinel_skips_before_read (SV := Demo.services))
             Demo.cfg "notes" "Retry work" "GUY" "491638" tt eq_refl).
  reflexivity.
Defined.

(** C7 as written fails: on the sentinel the document is not read. *)
Lemma sentinel_reads_nothing :
  let r := fst (Demo.chat (contribution_request "GUY" "notes") tt) in
  let tr := trace (update_engineer_pages_of (SV := Demo.services)
                     [("GUY", "491638")] Demo.cfg "notes" "Retry work" tt) in
  chat_status r = 200%Z /\ chat_content r = "NONE"%string /\
  tr = [EvChat (contribution_request "GUY" "notes") r] /\
  forall id g, ~ In (EvGet id g) tr.
Proof.
  cbv zeta. split; [reflexivity|]. split; [reflexivity|]. split; [reflexivity|].
  intros id g [H|[]]. discriminate H.
Qed.

Lemma skipped_on_failure_or_none_witness :
  trace (update_engineer_pages (SV := Demo.services) Demo.cfg "notes" "Retry work" tt)
  = trace (for_each (update_engineer_page (SV := Demo.services) Demo.cfg "notes" "Retry work")
             [("GUY", "491638"); ("EYAL", "491645")] tt)
    ++ EvChat (contribution_request "ARVIN" "notes") (mkChatResp 500 "overloaded" "")
    :: trace (for_each (update_engineer_page (SV := Demo.services) Demo.cfg "notes" "Retry work")
                [("MAYA", "557203")] tt).
Proof.
  unfold update_engineer_pages.
  change ENGINEER_PAGES
    with ([("GUY", "491638"); ("EYAL", "491645")] ++ ("ARVIN", "98393") :: [("MAYA", "557203")]).
  rewrite (skipped_on_failure_or_none (SV := Demo.services) Demo.cfg "notes" "Retry work"
             [("GUY", "491638"); ("EYAL", "491645")] "ARVIN" "98393" [("MAYA", "557203")] tt
             eq_refl).
  - reflexivity.
  - left. vm_compute. discriminate.
Defined.

End LogSpec.

(** ** More facts about the string primitives *)

Module StripFacts.
Import Py PyFacts Format.

Lemma lstrip_by_length p s : String.length (lstrip_by p s) <= String.length s.
Proof.
  induction s as [|c s IH]; simpl; [lia|]. destruct (p c); simpl; lia.
Qed.

Lemma rstrip_by_length p s : String.length (rstrip_by p s) <= String.length s.
Proof.
  induction s as [|c s IH]; simpl; [lia|].
  destruct (rstrip_by p s); [destruct (p c)|]; simpl in *; lia.
Qed.

(** A text that [lstrip] leaves alone starts with a character that is kept. *)
Lemma lstrip_by_fixed p s :
  lstrip_by p s = s -> s = EmptyString \/ exists c t, s = String c t /\ p c = false.
Proof.
  destruct s as [|c t]; [now left|]. right. exists c, t. split; [reflexivity|].
  simpl in H. destruct (p c); [|reflexivity].
  pose proof (lstrip_by_length p t) as L. rewrite H in L. simpl in L. lia.
Qed.

Lemma lstrip_by_keep p c t : p c = false -> lstrip_by p (String c t) = String c t.
Proof. intros H. simpl. now rewrite H. Qed.

Lemma rstrip_by_app p a b :
  rstrip_by p b <> EmptyString ->
  rstrip_by p (a ++ b) = (a ++ rstrip_by p b)%string.
Proof.
  intros N. induction a as [|c a IH]; [reflexivity|].
  cbn [append rstrip_by]. rewrite IH.
  destruct (a ++ rstrip_by p b)%string eqn:E; [|reflexivity].
  destruct a; [simpl in E; contradiction | discriminate].
Qed.

Lemma rstrip_by_all p b : all_chars p b = true -> rstrip_by p b = EmptyString.
Proof.
  induction b as [|c b IH]; [reflexivity|]. simpl.
  intros H. apply andb_true_iff in H as [Hc Hb]. now rewrite (IH Hb), Hc.
Qed.

Lemma rstrip_by_app_all p a b :
  all_chars p b = true -> rstrip_by p (a ++ b) = rstrip_by p a.
Proof.
  intros H. induction a as [|c a IH]; simpl.
  - now apply rstrip_by_all.
  - now rewrite IH.
Qed.

(** A stripped text is left alone by both halves of [strip]. *)
Lemma strip_fixed s :
  strip s = s -> lstrip_by isspace s = s /\ rstrip_by isspace s = s.
Proof.
  unfold strip. intros H.
  assert (L : lstrip_by isspace s = s).
  { pose proof (rstrip_by_length isspace (lstrip_by isspace s)) as L1.
    rewrite H in L1. clear H.
    induction s as [|c s IH]; [reflexivity|].
    simpl in *. destruct (isspace c); [|reflexivity].
    pose proof (lstrip_by_length isspace s). lia. }
  split; [exact L|]. now rewrite L in H.
Qed.

Lemma strip_app a b :
  truthy a = true -> lstrip_by isspace a = a ->
  truthy b = true -> rstrip_by isspace b = b ->
  strip (a ++ b) = (a ++ b)%string.
Proof.
  intros Ta La Tb Rb. unfold strip.
  destruct (lstrip_by_fixed _ _ La) as [->|(c & t & -> & Hc)]; [discriminate|].
  cbn [append]. rewrite (lstrip_by_keep _ _ _ Hc).
  change (String c (t ++ b)) with (String c t ++ b)%string.
  rewrite rstrip_by_app; rewrite Rb; [reflexivity|].
  destruct b; [discriminate | discriminate].
Qed.

Lemma contains_false_cons m c s :
  contains m (String c s) = false ->
  String.prefix m (String c s) = false /\ contains m s = false.
Proof. rewrite contains_cons. apply orb_false_iff. Qed.

Lemma cut_none sep s : contains sep s = false -> cut sep s = None.
Proof.
  intros H. destruct (cut sep s) as [[b a]|] eqn:E; [|reflexivity].
  apply cut_split in E.
  assert (T : contains sep s = true) by (apply contains_substr; now exists b, a).
  congruence.
Qed.

Lemma drop_app a b : drop (String.length a) (a ++ b) = b.
Proof. induction a as [|c a IH]; simpl; [now destruct b | exact IH]. Qed.

Lemma take_app a b : take (String.length a) (a ++ b) = a.
Proof. induction a as [|c a IH]; simpl; [now destruct b | now rewrite IH]. Qed.

Lemma cut_here sep s :
  String.prefix sep s = true -> cut sep s = Some (EmptyString, drop (String.length sep) s).
Proof. intros H. destruct s; cbn [cut]; now rewrite H. Qed.

(** The first occurrence of a separator that the text before it lacks. *)
Lemma cut_app sep a b :
  (forall x y, a = (x ++ y)%string -> truthy y = true ->
               String.prefix sep (y ++ sep ++ b) = false) ->
  cut sep (a ++ sep ++ b) = Some (a, b).
Proof.
  induction a as [|c a IH]; intros H.
  - cbn [append]. rewrite (cut_here _ _ (prefix_append sep b)). now rewrite drop_app.
  - pose proof (H EmptyString (String c a) eq_refl eq_refl) as H0.
    cbn [append] in H0. cbn [append cut]. rewrite H0.
    rewrite IH; [reflexivity|].
    intros x y -> Ty. apply (H (String c x) y eq_refl Ty).
Qed.

Lemma prefix_empty s : String.prefix EmptyString s = true.
Proof. now destruct s. Qed.

Lemma contains_bar_app a b :
  contains "|" (a ++ b) = contains "|" a || contains "|" b.
Proof.
  induction a as [|c a IH].
  - cbn [append]. destruct b; reflexivity.
  - cbn [append]. rewrite !contains_cons, IH.
    cbn [String.prefix]. rewrite !prefix_empty.
    destruct (ascii_dec "|" c); [reflexivity|]. reflexivity.
Qed.

Lemma upper_app a b : upper (a ++ b) = (upper a ++ upper b)%string.
Proof. induction a as [|c a IH]; simpl; [reflexivity | now rewrite IH]. Qed.

Lemma digit_not_space c : isdigit c = true -> isspace c = false.
Proof. destruct c as [[] [] [] [] [] [] [] []]; vm_compute; congruence. Qed.

Lemma digit_not_dot c : isdigit c = true -> c <> "."%char.
Proof. destruct c as [[] [] [] [] [] [] [] []]; vm_compute; congruence. Qed.

End StripFacts.

Module FormatSpec.
Import Py Parser PyFacts ParserFacts Format StripFacts.

Lemma all_chars_app p a b : all_chars p (a ++ b) = all_chars p a && all_chars p b.
Proof.
  induction a as [|c a IH]; simpl; [reflexivity|]. now rewrite IH, andb_assoc.
Qed.

(** A numbered line is cut right after its number. *)
Lemma cut_number number rest :
  all_chars isdigit number = true ->
  cut ". " (number ++ ". " ++ rest) = Some (number, rest).
Proof.
  intros D. apply cut_app. intros x y -> Ty.
  rewrite all_chars_app in D. apply andb_true_iff in D as [_ D].
  destruct y as [|c y]; [discriminate|].
  simpl in D. apply andb_true_iff in D as [Dc _].
  cbn [append String.prefix].
  destruct (ascii_dec "." c) as [<-|]; [|reflexivity].
  now apply digit_not_dot in Dc.
Qed.

Lemma number_is_cut number rest :
  is_number number = true ->
  contains ". " (number ++ ". " ++ rest) = true /\
  item_last (split1 ". " (number ++ ". " ++ rest)) = Ok rest.
Proof.
  intros N. apply andb_true_iff in N as [_ D]. split.
  - apply contains_substr. now exists number, rest.
  - unfold split1. now rewrite (cut_number _ _ D).
Qed.

(** X6.  On a line numbered "N. " the cut falls right after the number:
    what follows is kept whole, full stops and brackets included, and then
    only loses leading dashes, stars and blanks and surrounding whitespace. *)
Theorem numbered_line_keeps_its_text number rest :
  is_number number = true ->
  remove_numbering (number ++ ". " ++ rest) =
    Ok (strip (lstrip_chars "* " (lstrip_chars "- " rest))).
Proof.
  intros N. destruct (number_is_cut number rest N) as [C L].
  unfold remove_numbering. rewrite C, L. reflexivity.
Qed.

Lemma numbered_line_keeps_its_text_witness :
  remove_numbering "12. Ask Dr. Who (again) about f(x). Then ship" =
    Ok "Ask Dr. Who (again) about f(x). Then ship".
Proof.
  exact (numbered_line_keeps_its_text "12" "Ask Dr. Who (again) about f(x). Then ship" eq_refl).
Defined.

Lemma lstrip_twice_fixed p q s :
  lstrip_by p (lstrip_by q s) = s -> lstrip_by q s = s /\ lstrip_by p s = s.
Proof.
  intros H.
  assert (L : lstrip_by q s = s).
  { pose proof (lstrip_by_length p (lstrip_by q s)) as L1. rewrite H in L1.
    clear H. destruct s as [|c s]; [reflexivity|].
    simpl in *. destruct (q c); [|reflexivity].
    pose proof (lstrip_by_length q s). lia. }
  split; [exact L|]. now rewrite L in H.
Qed.

Lemma lstrip_by_app p a b :
  truthy a = true -> lstrip_by p a = a -> lstrip_by p (a ++ b) = (a ++ b)%string.
Proof.
  intros T L. destruct (lstrip_by_fixed _ _ L) as [->|(c & t & -> & Hc)]; [discriminate|].
  cbn [append]. now apply lstrip_by_keep.
Qed.

Lemma clean_inv s :
  clean s = true ->
  truthy s = true /\ lstrip_by isspace s = s /\ rstrip_by isspace s = s /\
  contains "|" s = false.
Proof.
  unfold clean. intros H.
  apply andb_true_iff in H as [H _].
  apply andb_true_iff in H as [H B].
  apply andb_true_iff in H as [T S].
  apply String.eqb_eq in S. destruct (strip_fixed _ S) as [L R].
  apply negb_true_iff in B. auto.
Qed.

Lemma rstrip_nonempty s :
  truthy s = true -> rstrip_by isspace s = s -> rstrip_by isspace s <> EmptyString.
Proof. intros T ->. now destruct s. Qed.

Lemma strip_trailing_blank s :
  truthy s = true -> strip s = s -> strip (s ++ " ") = s.
Proof.
  intros T S. destruct (strip_fixed _ S) as [L R]. unfold strip.
  rewrite (lstrip_by_app _ _ _ T L), rstrip_by_app_all; [exact R | reflexivity].
Qed.

(** What the line is after its number has been cut off. *)
Lemma marked_text_parts task name :
  clean task = true -> clean name = true ->
  let t := (task ++ " | ASSIGNEE: " ++ name)%string in
  strip t = t /\ has_marker t = true /\
  cut "|" t = Some ((task ++ " ")%string, (" ASSIGNEE: " ++ name)%string) /\
  first_segment (" ASSIGNEE: " ++ name) = (" ASSIGNEE: " ++ name)%string /\
  strip (" ASSIGNEE: " ++ name) = ("ASSIGNEE: " ++ name)%string.
Proof.
  intros Ct Cn. destruct (clean_inv _ Ct) as (Tt & Lt & Rt & Bt).
  destruct (clean_inv _ Cn) as (Tn & Ln & Rn & Bn). cbv zeta.
  assert (Bafter : contains "|" (" ASSIGNEE: " ++ name) = false).
  { rewrite contains_bar_app, Bn. reflexivity. }
  split; [|split; [|split; [|split]]].
  - replace (task ++ " | ASSIGNEE: " ++ name)%string
      with ((task ++ " | ASSIGNEE: ") ++ name)%string by now rewrite append_assoc.
    apply strip_app; auto.
    + destruct task; [discriminate | reflexivity].
    + now apply lstrip_by_app.
  - unfold has_marker. apply orb_true_iff. left. apply contains_substr.
    exists (task ++ " ")%string, (" " ++ name)%string.
    now rewrite append_assoc.
  - replace (task ++ " | ASSIGNEE: " ++ name)%string
      with ((task ++ " ") ++ "|" ++ " ASSIGNEE: " ++ name)%string
      by now rewrite append_assoc.
    apply cut_app. intros x y E Ty.
    assert (By : contains "|" y = false).
    { assert (B : contains "|" (task ++ " ") = false)
        by (rewrite contains_bar_app, Bt; reflexivity).
      rewrite E, contains_bar_app in B. now apply orb_false_iff in B. }
    destruct y as [|c y]; [discriminate|].
    apply contains_false_cons in By as [P _].
    cbn [append String.prefix] in *. rewrite prefix_empty in *.
    destruct (ascii_dec "|" c); [discriminate | reflexivity].
  - unfold first_segment. now rewrite (cut_none _ _ Bafter).
  - unfold strip. change (lstrip_by isspace (" ASSIGNEE: " ++ name))
      with ("ASSIGNEE: " ++ name)%string.
    rewrite rstrip_by_app; [now rewrite Rn | now apply rstrip_nonempty].
Qed.

(** A line in the prompt's format is read back as its task and name. *)
Lemma formatted_line_step st number task name :
  in_section st SecActions = true ->
  well_formed (number, task, name) = true ->
  step st (render_action number task name) =
    Ok (push_item st (mkItem task (Some name))).
Proof.
  intros Hs Hw. unfold well_formed in Hw.
  apply andb_true_iff in Hw as [Hw Cn].
  apply andb_true_iff in Hw as [Hw Pt].
  apply andb_true_iff in Hw as [Nn Ct].
  destruct (clean_inv _ Ct) as (Tt & Lt & Rt & Bt).
  destruct (clean_inv _ Cn) as (Tn & Ln & Rn & Bn).
  destruct (marked_text_parts task name Ct Cn) as (St & Mt & Cut & Seg & Sseg).
  pose proof Nn as Nn'. apply andb_true_iff in Nn' as [Tnum Dnum].
  destruct number as [|c number']; [discriminate|].
  assert (Dc : isdigit c = true) by (simpl in Dnum; now apply andb_true_iff in Dnum).
  set (number := String c number') in *.
  assert (Sl : strip (render_action number task name) = render_action number task name).
  { unfold render_action.
    replace (number ++ ". " ++ task ++ " | ASSIGNEE: " ++ name)%string
      with ((number ++ ". " ++ task ++ " | ASSIGNEE: ") ++ name)%string
      by now rewrite !append_assoc.
    apply strip_app; auto. apply lstrip_by_keep. now apply digit_not_space. }
  assert (Hr : remove_numbering (strip (render_action number task name)) =
               Ok (task ++ " | ASSIGNEE: " ++ name)%string).
  { rewrite Sl. unfold render_action, remove_numbering.
    destruct (number_is_cut number (task ++ " | ASSIGNEE: " ++ name) Nn) as [Cn' Ln'].
    rewrite Cn', Ln'. cbn [bind].
    apply String.eqb_eq in Pt. apply lstrip_twice_fixed in Pt as [P1 P2].
    unfold lstrip_chars in *.
    rewrite (lstrip_by_app _ _ _ Tt P1), (lstrip_by_app _ _ _ Tt P2). now rewrite St. }
  rewrite (step_bullet st (render_action number task name) c
             (task ++ " | ASSIGNEE: " ++ name)%string Hs);
    [| now rewrite Sl | rewrite Sl, Dc; reflexivity | exact Hr].
  rewrite (split_assignee_marked _ _ _ Mt Cut). cbn [bind fst snd].
  assert (Stask : strip (task ++ " ") = task).
  { apply strip_trailing_blank; [exact Tt|]. unfold strip. now rewrite Lt. }
  rewrite Stask, Tt, Seg, Sseg.
  assert (Hh : is_header "ASSIGNEE:" ("ASSIGNEE: " ++ name) = true).
  { unfold is_header, startswith. rewrite upper_app.
    change (upper "ASSIGNEE: " ++ upper name)%string
      with ("ASSIGNEE:" ++ " " ++ upper name)%string.
    apply prefix_append. }
  rewrite Hh.
  change (drop 9 ("ASSIGNEE: " ++ name)) with (" " ++ name)%string.
  change (strip (" " ++ name)) with (strip name).
  unfold strip. now rewrite Ln, Rn.
Qed.

End FormatSpec.

(** ** Lines without the assignee marker *)

Module BulletSpec.
Import Py Parser PyFacts ParserFacts Format StripFacts.











End BulletSpec.


Module DocumentSpec.
Import Py Parser PyFacts ParserFacts Format StripFacts.

Lemma contains_char_app c a b :
  contains (String c "") (a ++ b) = contains (String c "") a || contains (String c "") b.
Proof.
  induction a as [|x a IH].
  - cbn [append]. destruct b; reflexivity.
  - cbn [append]. rewrite !contains_cons, IH.
    cbn [String.prefix]. rewrite !prefix_empty.
    destruct (ascii_dec c x); reflexivity.
Qed.

Lemma cut_char c a b :
  contains (String c "") a = false ->
  cut (String c "") (a ++ String c "" ++ b) = Some (a, b).
Proof.
  intros N. apply cut_app. intros x y E Ty.
  rewrite E, contains_char_app in N. apply orb_false_iff in N as [_ N].
  destruct y as [|d y]; [discriminate|].
  apply contains_false_cons in N as [P _].
  cbn [append String.prefix] in *. rewrite prefix_empty in *.
  destruct (ascii_dec c d); [discriminate | reflexivity].
Qed.

(** Joining lines with newlines and splitting again gives the lines back. *)
Lemma split_join lines :
  lines <> [] ->
  Forall (fun l => contains nl l = false) lines ->
  split nl_char (join nl lines) = lines.
Proof.
  intros N F. induction F as [|l rest Hl F IH]; [contradiction|].
  destruct rest as [|l2 rest].
  - cbn [join String.concat]. apply split_no_cut. now apply cut_none.
  - change (join nl (l :: l2 :: rest)) with (l ++ nl ++ join nl (l2 :: rest))%string.
    rewrite (split_cut nl_char _ l (join nl (l2 :: rest))).
    + f_equal. apply IH. discriminate.
    + now apply cut_char.
Qed.

Lemma loop_app l1 : forall st l2,
  loop st (l1 ++ l2) = (st1 <- loop st l1 ;; loop st1 l2).
Proof.
  induction l1 as [|l l1 IH]; intros st l2; [reflexivity|].
  cbn [app loop]. destruct (step st l); cbn [bind]; [apply IH | reflexivity].
Qed.

Lemma step_title_line st ttl :
  title_text ttl = true ->
  step st ("TITLE: " ++ ttl) =
    Ok (mkLocals ttl (Some SecTitle) (l_summary_lines st) (l_action_items st)).
Proof.
  unfold title_text. intros H.
  apply andb_true_iff in H as [H _]. apply andb_true_iff in H as [T S].
  apply String.eqb_eq in S. destruct (strip_fixed _ S) as [L R].
  assert (E : strip ("TITLE: " ++ ttl) = ("TITLE: " ++ ttl)%string).
  { apply strip_app; auto. }
  unfold step. rewrite E.
  assert (Hh : is_header "TITLE:" ("TITLE: " ++ ttl) = true).
  { unfold is_header, startswith. rewrite upper_app.
    change (upper "TITLE: " ++ upper ttl)%string with ("TITLE:" ++ " " ++ upper ttl)%string.
    apply prefix_append. }
  rewrite Hh. change (drop 6 ("TITLE: " ++ ttl)) with (" " ++ ttl)%string.
  change (strip (" " ++ ttl)) with (strip ttl). now rewrite S.
Qed.

Lemma step_summary_line st l :
  in_section st SecSummary = true ->
  summary_line l = true ->
  step st l = Ok (mkLocals (l_title st) (l_current_section st)
                           (l_summary_lines st ++ [l]) (l_action_items st)).
Proof.
  unfold summary_line. intros Hs H.
  apply andb_true_iff in H as [H _].
  apply andb_true_iff in H as [H H3]. apply andb_true_iff in H as [H H2].
  apply andb_true_iff in H as [T H1].
  apply negb_true_iff in H1, H2, H3.
  unfold step. now rewrite H1, H2, H3, Hs, T.
Qed.

Lemma loop_summary_lines ls : forall st,
  in_section st SecSummary = true ->
  forallb summary_line ls = true ->
  loop st ls = Ok (mkLocals (l_title st) (l_current_section st)
                            (l_summary_lines st ++ ls) (l_action_items st)).
Proof.
  induction ls as [|l ls IH]; intros st Hs F.
  - cbn. rewrite app_nil_r. now destruct st.
  - cbn [forallb] in F. apply andb_true_iff in F as [Fl F].
    cbn [loop]. rewrite (step_summary_line _ _ Hs Fl). cbn [bind].
    rewrite IH; [|exact Hs|exact F].
    cbn. now rewrite <- app_assoc.
Qed.

(** X1.  In the action section, lines written as the prompt asks
    ("N. task | ASSIGNEE: name", with a trimmed task and name free of bars)
    are read back as exactly their tasks and names, one item per line, in
    order. *)
Theorem formatted_lines_round_trip actions : forall st,
  in_section st SecActions = true ->
  forallb well_formed actions = true ->
  loop st (map line_of actions) =
    Ok (mkLocals (l_title st) (l_current_section st) (l_summary_lines st)
                 (l_action_items st ++ map item_of actions)).
Proof.
  induction actions as [|[[number task] name] actions IH]; intros st Hs F.
  - cbn. rewrite app_nil_r. now destruct st.
  - cbn [forallb] in F. apply andb_true_iff in F as [Fa F].
    cbn [map loop line_of].
    rewrite (FormatSpec.formatted_line_step st number task name Hs Fa).
    cbn [bind]. rewrite IH; [|exact Hs|exact F].
    cbn. now rewrite <- app_assoc.
Qed.

Lemma formatted_lines_round_trip_witness :
  loop (mkLocals "Retry work" (Some SecActions) [] [])
       ["1. Write the design note. Then share it | ASSIGNEE: Eyal";
        "12. Fix the retry bug | ASSIGNEE: Maya K."] =
  Ok (mkLocals "Retry work" (Some SecActions) []
        [mkItem "Write the design note. Then share it" (Some "Eyal");
         mkItem "Fix the retry bug" (Some "Maya K.")]).
Proof.
  exact (formatted_lines_round_trip
           [("1", "Write the design note. Then share it", "Eyal");
            ("12", "Fix the retry bug", "Maya K.")]
           (mkLocals "Retry work" (Some SecActions) [] []) eq_refl eq_refl).
Defined.

Lemma digits_no_newline s : all_chars isdigit s = true -> contains nl s = false.
Proof.
  induction s as [|c s IH]; [reflexivity|].
  simpl all_chars. intros H. apply andb_true_iff in H as [Hc Hs].
  change nl with (String nl_char "").
  rewrite contains_cons. cbn [String.prefix]. rewrite prefix_empty.
  change (String nl_char "") with nl. rewrite (IH Hs).
  destruct (ascii_dec nl_char c) as [<-|]; [discriminate Hc | reflexivity].
Qed.

Lemma action_line_no_newline a :
  well_formed a = true -> contains nl (line_of a) = false.
Proof.
  destruct a as [[number task] name]. unfold well_formed, line_of, render_action, clean.
  intros H. apply andb_true_iff in H as [H Cn]. apply andb_true_iff in H as [H _].
  apply andb_true_iff in H as [Nn Ct].
  apply andb_true_iff in Nn as [_ Dn].
  apply andb_true_iff in Ct as [_ Ct]. apply andb_true_iff in Cn as [_ Cn].
  apply negb_true_iff in Ct, Cn.
  change nl with (String nl_char "") in *.
  rewrite !contains_char_app.
  change (String nl_char "") with nl in *.
  now rewrite (digits_no_newline _ Dn), Ct, Cn.
Qed.

(** X2.  A completion laid out as the prompt asks (a TITLE: line, a SUMMARY:
    header followed by its lines, an ACTION ITEMS: header followed by
    formatted action lines) is recovered exactly: the title text, the
    summary lines joined and stripped, and one item per action line. *)
Theorem well_formed_document_is_recovered ttl summary actions :
  title_text ttl = true ->
  summary <> [] ->
  forallb summary_line summary = true ->
  forallb well_formed actions = true ->
  parse_content (join nl (document ttl summary actions)) =
    Ok (mkRecord ttl (strip (join nl summary)) (map item_of actions)).
Proof.
  intros Ht Hn Hs Ha. unfold parse_content.
  assert (Hsplit : split nl_char (join nl (document ttl summary actions))
                   = document ttl summary actions).
  { apply split_join; [discriminate|]. unfold document.
    constructor.
    { unfold title_text in Ht. apply andb_true_iff in Ht as [_ Ht].
      apply negb_true_iff in Ht. change nl with (String nl_char "") in *.
      rewrite contains_char_app, Ht. reflexivity. }
    constructor; [reflexivity|].
    apply Forall_app. split.
    { apply Forall_forall. intros l Hl.
      rewrite forallb_forall in Hs. specialize (Hs l Hl).
      unfold summary_line in Hs. apply andb_true_iff in Hs as [_ Hs].
      now apply negb_true_iff in Hs. }
    constructor; [reflexivity|].
    apply Forall_forall. intros l Hl. apply in_map_iff in Hl as (a & <- & Hin).
    rewrite forallb_forall in Ha. apply action_line_no_newline. now apply Ha. }
  rewrite Hsplit. unfold document. cbn [loop].
  rewrite (step_title_line _ _ Ht). cbn [bind].
  replace (step _ "SUMMARY:")
    with (Ok (mkLocals ttl (Some SecSummary) [] [])) by reflexivity.
  cbn [bind]. rewrite loop_app, loop_summary_lines; [|reflexivity|exact Hs].
  cbn [bind loop l_title l_current_section l_summary_lines l_action_items app].
  replace (step _ "ACTION ITEMS:")
    with (Ok (mkLocals ttl (Some SecActions) summary [])) by reflexivity.
  cbn [bind].
  assert (La : forall acts st,
             in_section st SecActions = true ->
             forallb well_formed acts = true ->
             loop st (map line_of acts) =
               Ok (mkLocals (l_title st) (l_current_section st) (l_summary_lines st)
                            (l_action_items st ++ map item_of acts))).
  { clear. induction acts as [|[[number task] name] acts IH]; intros st Hs F.
    - cbn. rewrite app_nil_r. now destruct st.
    - cbn [forallb] in F. apply andb_true_iff in F as [Fa F].
      cbn [map loop line_of].
      rewrite (FormatSpec.formatted_line_step st number task name Hs Fa).
      cbn [bind]. rewrite IH; [|exact Hs|exact F].
      cbn. now rewrite <- app_assoc. }
  rewrite La; [|reflexivity|exact Ha].
  cbn [bind l_title l_current_section l_summary_lines l_action_items app].
  destruct summary; [contradiction | reflexivity].
Qed.

Lemma well_formed_document_is_recovered_witness :
  parse_content
    ("TITLE: Retry work" ++ nl ++ "SUMMARY:" ++ nl ++ "<p>We met.</p>" ++ nl ++
     "  <ul><li>x</li></ul>" ++ nl ++ "ACTION ITEMS:" ++ nl ++
     "1. Write the design note. Then share it | ASSIGNEE: Eyal" ++ nl ++
     "12. Fix the retry bug | ASSIGNEE: Maya K.") =
  Ok (mkRecord "Retry work" ("<p>We met.</p>" ++ nl ++ "  <ul><li>x</li></ul>")
        [mkItem "Write the design note. Then share it" (Some "Eyal");
         mkItem "Fix the retry bug" (Some "Maya K.")]).
Proof.
  refine (well_formed_document_is_recovered "Retry work"
            ["<p>We met.</p>"; "  <ul><li>x</li></ul>"]
            [("1", "Write the design note. Then share it", "Eyal");
             ("12", "Fix the retry bug", "Maya K.")]
            eq_refl _ eq_refl eq_refl).
  discriminate.
Defined.

End DocumentSpec.

Module ParserMore.
Import Py Parser PyFacts ParserFacts Format StripFacts.

Lemma step_actions_closed st line st' :
  step st line = Ok st' ->
  is_header "ACTION ITEMS:" (strip line) = false ->
  in_section st SecActions = false ->
  in_section st' SecActions = false /\ l_action_items st' = l_action_items st.
Proof.
  unfold step. intros H N S0. rewrite N, S0 in H. cbn [andb] in H.
  destruct (is_header "TITLE:" (strip line)); [now inversion H|].
  destruct (is_header "SUMMARY:" (strip line)); [now inversion H|].
  destruct (in_section st SecSummary && truthy (strip line));
    inversion H; subst; auto.
Qed.

Lemma loop_actions_closed lines : forall st st',
  loop st lines = Ok st' ->
  Forall (fun l => is_header "ACTION ITEMS:" (strip l) = false) lines ->
  in_section st SecActions = false ->
  l_action_items st' = l_action_items st.
Proof.
  induction lines as [|l lines IH]; intros st st' H F S0; simpl in H.
  - now inversion H.
  - inversion F as [|? ? Hl Hr]; subst.
    destruct (step st l) as [st1|e] eqn:E; [|discriminate]. cbn [bind] in H.
    destruct (step_actions_closed _ _ _ E Hl S0) as [S1 L1].
    rewrite (IH _ _ H Hr S1). exact L1.
Qed.

(** X3.  Without an ACTION ITEMS: header no line becomes an action item,
    whatever bullets or numbered lines the completion has. *)
Theorem no_action_header_no_items content :
  Forall (fun l => is_header "ACTION ITEMS:" (strip l) = false) (split nl_char content) ->
  action_items (summary_of_content content) = [].
Proof.
  intros F. unfold summary_of_content, parse_content.
  destruct (loop_total (split nl_char content) initial) as [st E].
  rewrite E. cbn [bind action_items].
  now rewrite (loop_actions_closed _ _ _ E F eq_refl).
Qed.

Lemma no_action_header_no_items_witness :
  action_items (summary_of_content
                  ("SUMMARY:" ++ nl ++ "1. Ship it | ASSIGNEE: Maya" ++ nl ++ "- and test")) = [].
Proof.
  apply no_action_header_no_items. vm_compute. repeat constructor.
Defined.

Lemma step_on_title st l :
  is_header "TITLE:" (strip l) = true ->
  exists st', step st l = Ok st' /\ l_title st' = strip (drop 6 (strip l)).
Proof. intros H. unfold step. rewrite H. eauto. Qed.

(** X4.  When several lines are TITLE: headers, the title is taken from the
    last of them: the text after the six characters of the keyword,
    stripped. *)
Theorem last_title_line_wins content before l after :
  split nl_char content = before ++ l :: after ->
  is_header "TITLE:" (strip l) = true ->
  Forall (fun x => is_header "TITLE:" (strip x) = false) after ->
  title (summary_of_content content) = strip (drop 6 (strip l)).
Proof.
  intros Hs Hl Ha. unfold summary_of_content, parse_content. rewrite Hs.
  destruct (loop_total before initial) as [st1 E1].
  destruct (step_on_title st1 l Hl) as (st2 & E2 & T2).
  destruct (loop_total after st2) as [st3 E3].
  assert (E : loop initial (before ++ l :: after) = Ok st3).
  { rewrite DocumentSpec.loop_app, E1. cbn [bind loop]. rewrite E2. exact E3. }
  rewrite E. cbn [bind title]. rewrite (loop_title _ _ _ E3 Ha). exact T2.
Qed.

Lemma last_title_line_wins_witness :
  title (summary_of_content
           ("Title: Draft" ++ nl ++ "notes" ++ nl ++ "  title:   Retry work  " ++ nl ++ "bye"))
  = "Retry work".
Proof.
  apply (last_title_line_wins _ ["Title: Draft"; "notes"] "  title:   Retry work  " ["bye"]);
    [reflexivity | reflexivity | repeat constructor].
Defined.

Lemma rstrip_by_idem p s : rstrip_by p (rstrip_by p s) = rstrip_by p s.
Proof.
  induction s as [|c s IH]; [reflexivity|]. cbn [rstrip_by].
  destruct (rstrip_by p s) as [|d r] eqn:E.
  - destruct (p c) eqn:Pc; [reflexivity|]. cbn. now rewrite Pc.
  - cbn [rstrip_by]. cbn [rstrip_by] in IH. now rewrite IH.
Qed.

Lemma lstrip_rstrip p s :
  lstrip_by p s = s -> lstrip_by p (rstrip_by p s) = rstrip_by p s.
Proof.
  intros L. destruct (lstrip_by_fixed _ _ L) as [->|(c & t & -> & Hc)]; [reflexivity|].
  cbn [rstrip_by]. destruct (rstrip_by p t).
  - rewrite Hc. now apply lstrip_by_keep.
  - now apply lstrip_by_keep.
Qed.

Lemma lstrip_by_idem p s : lstrip_by p (lstrip_by p s) = lstrip_by p s.
Proof.
  induction s as [|c s IH]; [reflexivity|]. simpl.
  destruct (p c) eqn:Pc; [exact IH|]. simpl. now rewrite Pc.
Qed.

Lemma strip_idem s : strip (strip s) = strip s.
Proof.
  unfold strip. rewrite lstrip_rstrip by apply lstrip_by_idem.
  apply rstrip_by_idem.
Qed.

Lemma drop_substr n s : substr s (drop n s).
Proof.
  revert s; induction n as [|n IH]; intros s; [apply substr_refl|].
  destruct s as [|c s]; [apply substr_refl|]. simpl. apply substr_cons, IH.
Qed.

Lemma first_segment_no_bar s : contains "|" (first_segment s) = false.
Proof.
  unfold first_segment. destruct (cut "|" s) as [[b a]|] eqn:E.
  - revert b a E. induction s as [|c s IH]; intros b a; cbn [cut].
    + discriminate.
    + cbn [String.prefix]. rewrite prefix_empty.
      destruct (ascii_dec "|" c) as [<-|N].
      * intros [= <- <-]. reflexivity.
      * destruct (cut "|" s) as [[b' a']|]; [|discriminate].
        intros [= <- <-]. rewrite contains_cons, (IH _ _ eq_refl).
        cbn [String.prefix]. rewrite prefix_empty.
        destruct (ascii_dec "|" c); [contradiction | reflexivity].
  - destruct (contains "|" s) eqn:C; [|reflexivity].
    destruct (cut_contains _ _ C) as (b & a & E'). congruence.
Qed.

(** The shape every parsed item has. *)
Lemma split_assignee_tidy t y a :
  strip t = t ->
  split_assignee t = Ok (y, a) ->
  strip y = y /\
  forall n, a = Some n -> strip n = n /\ contains "|" n = false.
Proof.
  intros St H. destruct (has_marker t) eqn:Hm.
  - destruct (marker_has_bar t Hm) as (b & af & Hc).
    rewrite (split_assignee_marked t b af Hm Hc) in H.
    destruct (is_header "ASSIGNEE:" (strip (first_segment af)));
      injection H as <- <-; (split; [apply strip_idem|]); [|discriminate].
    assert (G : contains "|" (strip (drop 9 (strip (first_segment af)))) = false).
    { destruct (contains "|" (strip (drop 9 (strip (first_segment af))))) eqn:C;
        [|reflexivity].
      rewrite <- (first_segment_no_bar af). symmetry.
      eapply contains_mono; [|exact C].
      eapply substr_trans; [apply strip_substr|].
      eapply substr_trans; [apply drop_substr | apply strip_substr]. }
    intros n Hn. injection Hn as <-. split; [apply strip_idem | exact G].
  - rewrite (split_assignee_unmarked t Hm) in H. injection H as <- <-.
    split; [exact St | discriminate].
Qed.

Lemma remove_numbering_stripped ls t : remove_numbering ls = Ok t -> strip t = t.
Proof.
  unfold remove_numbering. intros H.
  destruct (contains ". " ls).
  - destruct (split1_last ". " ls) as (x & E & _). rewrite E in H.
    injection H as <-. apply strip_idem.
  - destruct (contains ") " ls).
    + destruct (split1_last ") " ls) as (x & E & _). rewrite E in H.
      injection H as <-. apply strip_idem.
    + injection H as <-. apply strip_idem.
Qed.

Lemma action_line_tidy st ls st' :
  action_line st ls = Ok st' ->
  Forall tidy (l_action_items st) -> Forall tidy (l_action_items st').
Proof.
  unfold action_line. intros H F.
  destruct (char_at ls 0) as [c|e]; [|discriminate]. cbn [bind] in H.
  destruct (isdigit c || startswith ls "-"); [|now injection H as <-].
  destruct (remove_numbering ls) as [t|e] eqn:Er; [|discriminate]. cbn [bind] in H.
  destruct (split_assignee t) as [[y a]|e] eqn:Es; [|discriminate]. cbn [bind] in H.
  destruct (truthy y) eqn:Ty; injection H as <-; [|exact F].
  cbn [push_item l_action_items]. apply Forall_app. split; [exact F|].
  constructor; [|constructor].
  destruct (split_assignee_tidy t y a (remove_numbering_stripped _ _ Er) Es) as [Sy Sa].
  unfold tidy. cbn [task assignee]. auto.
Qed.

Lemma step_keeps_items (P : list ActionItem -> Prop) st line st' :
  (forall ls s', action_line st ls = Ok s' -> P (l_action_items s')) ->
  P (l_action_items st) ->
  step st line = Ok st' -> P (l_action_items st').
Proof.
  unfold step. intros A F H.
  destruct (is_header "TITLE:" (strip line)); [now injection H as <-|].
  destruct (is_header "SUMMARY:" (strip line)); [now injection H as <-|].
  destruct (is_header "ACTION ITEMS:" (strip line)); [now injection H as <-|].
  destruct (in_section st SecSummary && truthy (strip line)); [now injection H as <-|].
  destruct (in_section st SecActions && truthy (strip line)); [|now injection H as <-].
  eapply A; eauto.
Qed.

Lemma loop_tidy lines : forall st st',
  loop st lines = Ok st' ->
  Forall tidy (l_action_items st) -> Forall tidy (l_action_items st').
Proof.
  induction lines as [|l lines IH]; intros st st' H F; simpl in H.
  - now injection H as <-.
  - destruct (step st l) as [st1|e] eqn:E; [|discriminate]. cbn [bind] in H.
    eapply IH; [exact H|].
    eapply (step_keeps_items (Forall tidy)); [|exact F|exact E].
    intros ls s' Hs. eapply action_line_tidy; eauto.
Qed.

(** X5.  Whatever the completion, every parsed item has a non-empty task
    without surrounding whitespace, and an assignee, when present, without
    surrounding whitespace and without a bar. *)
Theorem parsed_items_are_tidy content :
  Forall tidy (action_items (summary_of_content content)).
Proof.
  unfold summary_of_content, parse_content.
  destruct (loop_total (split nl_char content) initial) as [st E].
  rewrite E. cbn [bind action_items].
  eapply loop_tidy; [exact E | constructor].
Qed.

End ParserMore.

Module PublishSpec.
Import Py Parser Remote Fetcher Traces RunFacts Readers.

Section Publish.
Context {W : Type} {SV : Services W}.

(** The paths through [create_confluence_page]. *)
Lemma create_confluence_page_run cfg ttl content w :
  let data := mkCreate ttl (space_key cfg) None content in
  let r0 := fst (content_create data w) in
  let probe := find_valid_parent_pages (space_key cfg) (snd (content_create data w)) in
  create_confluence_page cfg ttl content w =
    if created (create_status r0)
    then (Some r0, snd (content_create data w), [EvCreate data r0])
    else match result probe with
         | Some parent =>
             let q := mkCreate ttl (space_key cfg) (Some (Z.of_N parent)) content in
             let r := fst (content_create q (world probe)) in
             (if created (create_status r) then Some r else None,
              snd (content_create q (world probe)),
              EvCreate data r0 :: trace probe ++ [EvCreate q r])
         | None => (None, world probe, EvCreate data r0 :: trace probe)
         end.
Proof.
  cbv zeta. unfold create_confluence_page.
  rewrite mbind_run, call_run. cbn [result world trace fst snd].
  set (data := mkCreate ttl (space_key cfg) None content).
  set (r0 := fst (content_create data w)).
  set (w1 := snd (content_create data w)).
  rewrite mbind_run.
  destruct (created (create_status r0)) eqn:E0; cbn [negb].
  - rewrite ret_run. cbn [result world trace fst snd]. rewrite E0. reflexivity.
  - rewrite mbind_run.
    set (probe := find_valid_parent_pages (space_key cfg) w1).
    destruct (result probe) as [parent|].
    + rewrite mbind_run, call_run. cbn [result world trace fst snd].
      set (q := mkCreate ttl (space_key cfg) (Some (Z.of_N parent)) content).
      set (r := fst (content_create q (world probe))).
      rewrite ret_run. cbn [result world trace fst snd].
      destruct (created (create_status r)).
      * rewrite ret_run. cbn [result world trace fst snd app]. now rewrite !app_nil_r.
      * rewrite ret_run. cbn [result world trace fst snd app]. now rewrite !app_nil_r.
    + rewrite ret_run. cbn [result world trace fst snd]. rewrite ret_run.
      cbn [result world trace fst snd]. now rewrite !app_nil_r.
Qed.
(** X7.  When the space root takes the page, that creation is the only call:
    no listing, no test page, no deletion. *)
Theorem root_accepted_no_probe cfg ttl content w :
  let data := mkCreate ttl (space_key cfg) None content in
  let r0 := fst (content_create data w) in
  created (create_status r0) = true ->
  create_confluence_page cfg ttl content w =
    (Some r0, snd (content_create data w), [EvCreate data r0]).
Proof. cbv zeta. intros H. now rewrite create_confluence_page_run, H. Qed.

(** X8.  Page data is returned only for an accepted creation of the page
    itself, which is then the last call made. *)
Theorem published_page_was_created cfg ttl content w r :
  result (create_confluence_page cfg ttl content w) = Some r ->
  created (create_status r) = true /\
  exists earlier q,
    trace (create_confluence_page cfg ttl content w) = earlier ++ [EvCreate q r] /\
    create_title q = ttl /\ create_body q = content /\
    create_space q = space_key cfg.
Proof.
  rewrite create_confluence_page_run. cbv zeta.
  destruct (created (create_status (fst (content_create _ w)))) eqn:E0.
  - cbn [result trace fst snd]. intros [= <-]. split; [exact E0|].
    exists []. eexists. split; [reflexivity|]. auto.
  - destruct (result (find_valid_parent_pages (space_key cfg) _)) as [parent|];
      [|discriminate].
    cbn [result trace fst snd].
    destruct (created (create_status (fst (content_create (mkCreate _ _ (Some _) _) _))))
      eqn:E1; [|discriminate].
    intros [= <-]. split; [exact E1|].
    eexists (_ :: _). eexists. split; [reflexivity|]. auto.
Qed.

End Publish.

Lemma root_accepted_no_probe_witness :
  trace (create_confluence_page (SV := Scenarios.open_root) Demo.cfg "Notes" "<p>x</p>" tt)
  = [EvCreate (mkCreate "Notes" "ENG" None "<p>x</p>")
              (mkCreateResp 200 "77" "/spaces/ENG/pages/77")].
Proof.
  rewrite (root_accepted_no_probe (SV := Scenarios.open_root) Demo.cfg "Notes" "<p>x</p>" tt
             eq_refl).
  reflexivity.
Defined.

Lemma published_page_was_created_witness :
  exists earlier q,
    trace (create_confluence_page (SV := Demo.services) Demo.cfg "Notes" "<p>x</p>" tt)
      = earlier ++ [EvCreate q (mkCreateResp 200 "900" "/spaces/ENG/pages/900")] /\
    create_title q = "Notes"%string /\ create_body q = "<p>x</p>"%string.
Proof.
  destruct (published_page_was_created (SV := Demo.services) Demo.cfg "Notes" "<p>x</p>" tt
              (mkCreateResp 200 "900" "/spaces/ENG/pages/900") eq_refl)
    as (_ & earlier & q & Ht & H1 & H2 & _).
  exists earlier, q. auto.
Defined.

End PublishSpec.

Module TicketMore.
Import Py Parser Remote Fetcher Traces RunFacts Readers TicketSpec.

Lemma accepted_keys_app t1 t2 :
  accepted_keys (t1 ++ t2) = accepted_keys t1 ++ accepted_keys t2.
Proof.
  induction t1 as [|e t1 IH]; simpl; [reflexivity|].
  destruct e; simpl; try exact IH. destruct (created (issue_status r)); simpl; now rewrite IH.
Qed.

Lemma user_queries_app t1 t2 :
  user_queries (t1 ++ t2) = user_queries t1 ++ user_queries t2.
Proof.
  induction t1 as [|e t1 IH]; simpl; [reflexivity|].
  destruct e; simpl; now rewrite IH.
Qed.

Section Tickets.
Context {W : Type} {SV : Services W}.

Lemma resolve_assignee_trace assignee_name w :
  trace (resolve_assignee assignee_name w) =
    match assignee_name with
    | Some n => if truthy n then [EvUserSearch n (fst (user_search n w))] else []
    | None => []
    end.
Proof.
  destruct (resolve_assignee_run assignee_name w) as [(T & ->)|(n & -> & T & Ht & _)].
  - destruct assignee_name as [n|]; [|reflexivity]. cbn in T. now rewrite T.
  - rewrite T. exact Ht.
Qed.

(** X9.  The keys collected by the ticket loop are those of the accepted
    creations, in order. *)
Theorem created_tickets_are_accepted_keys cfg ttl link items : forall acc w,
  result (create_tickets cfg ttl link items acc w) =
    acc ++ accepted_keys (trace (create_tickets cfg ttl link items acc w)).
Proof.
  induction items as [|it rest IH]; intros acc w.
  - cbn. now rewrite app_nil_r.
  - rewrite create_tickets_cons. cbn [create_tickets]. rewrite mbind_run.
    cbn [result fst]. rewrite IH, accepted_keys_app.
    rewrite create_jira_ticket_run. cbn [result world trace fst snd].
    rewrite accepted_keys_app, resolve_assignee_trace.
    set (o := resolve_assignee (assignee it) w).
    set (q := mkIssue _ _ _ _ _). 
    assert (E : accepted_keys
                  (match assignee it with
                   | Some n => if truthy n then [EvUserSearch n (fst (user_search n w))] else []
                   | None => []
                   end) = []).
    { destruct (assignee it) as [n|]; [destruct (truthy n)|]; reflexivity. }
    rewrite E. cbn [app accepted_keys].
    destruct (created (issue_status (fst (issue_create q (world o))))); cbn [app].
    + now rewrite <- app_assoc.
    + reflexivity.
Qed.

(** X10.  The directory is asked once for each item that names an assignee,
    in item order, and never for the others. *)
Theorem directory_asked_for_named_items cfg ttl link items : forall acc w,
  user_queries (trace (create_tickets cfg ttl link items acc w)) = named_assignees items.
Proof.
  induction items as [|it rest IH]; intros acc w; [reflexivity|].
  rewrite create_tickets_cons, user_queries_app, IH.
  rewrite create_jira_ticket_run. cbn [trace snd].
  rewrite user_queries_app, resolve_assignee_trace.
  unfold named_assignees. cbn [flat_map].
  destruct (assignee it) as [n|]; [destruct (truthy n)|]; reflexivity.
Qed.

End Tickets.

End TicketMore.

Module LogMore.
Import Py Parser Remote Fetcher Traces RunFacts Readers LogSpec.

Lemma chat_requests_app t1 t2 :
  chat_requests (t1 ++ t2) = chat_requests t1 ++ chat_requests t2.
Proof.
  induction t1 as [|e t1 IH]; simpl; [reflexivity|].
  destruct e; simpl; now rewrite IH.
Qed.

Lemma put_requests_app t1 t2 :
  put_requests (t1 ++ t2) = put_requests t1 ++ put_requests t2.
Proof.
  induction t1 as [|e t1 IH]; simpl; [reflexivity|].
  destruct e; simpl; now rewrite IH.
Qed.

Lemma person_update_chat cfg transcript ttl entry chunk :
  person_update cfg transcript ttl entry chunk ->
  chat_requests chunk = [contribution_request (fst entry) transcript].
Proof.
  intros [(r & _ & ->)|[(r & g & _ & _ & ->)|(r & g & s & _ & _ & ->)]]; reflexivity.
Qed.

Lemma person_update_puts cfg transcript ttl entry chunk :
  person_update cfg transcript ttl entry chunk ->
  length (put_requests chunk) <= 1.
Proof.
  intros [(r & _ & ->)|[(r & g & _ & _ & ->)|(r & g & s & _ & _ & ->)]]; simpl; lia.
Qed.

Lemma person_update_events cfg transcript ttl roster entry chunk :
  In entry roster ->
  person_update cfg transcript ttl entry chunk ->
  Forall (log_event roster) chunk.
Proof.
  intros Hin H. assert (Hid : In (snd entry) (map snd roster)) by now apply in_map.
  destruct H as [(r & _ & ->)|[(r & g & _ & _ & ->)|(r & g & s & _ & _ & ->)]];
    repeat constructor; exact Hid.
Qed.

Section Logs.
Context {W : Type} {SV : Services W}.

(** X11.  With a key configured, every roster person is asked about exactly
    once, in roster order, whatever the earlier answers and updates did. *)
Theorem every_person_is_asked_once roster cfg transcript ttl w :
  truthy_opt (api_key cfg) = true ->
  chat_requests (trace (update_engineer_pages_of roster cfg transcript ttl w)) =
    map (fun entry => contribution_request (fst entry) transcript) roster.
Proof.
  intros K. unfold update_engineer_pages_of. rewrite K. cbn [negb].
  assert (G : forall l v,
             chat_requests (trace (for_each (update_engineer_page cfg transcript ttl) l v)) =
             map (fun entry => contribution_request (fst entry) transcript) l).
  { intros l v. destruct (for_each_chunks cfg transcript ttl l v) as (chunks & -> & F).
    clear v. induction F as [|e c l chunks H _ IH]; [reflexivity|].
    cbn [concat map]. rewrite chat_requests_app, IH.
    now rewrite (person_update_chat _ _ _ _ _ H). }
  destruct roster; [reflexivity | apply G].
Qed.

(** X12.  The log update only talks to the model and to roster pages: its
    trace is, person by person in roster order, the contribution request
    alone, or that request and the read of the person's page, or request,
    read and one update of that same page.  So no person gets more than
    one update, and nothing is created, deleted or filed. *)
Theorem log_update_stays_on_roster roster cfg transcript ttl w :
  let tr := trace (update_engineer_pages_of roster cfg transcript ttl w) in
  Forall (log_event roster) tr /\
  exists chunks,
    tr = concat chunks /\
    Forall2 (fun entry chunk =>
               exists q r,
                 chunk = [EvChat q r] \/
                 (exists g, chunk = [EvChat q r; EvGet (snd entry) g]) \/
                 (exists g p s, chunk = [EvChat q r; EvGet (snd entry) g; EvPut p s] /\
                                put_id p = snd entry))
            (firstn (length chunks) roster) chunks.
Proof.
  cbv zeta.
  destruct (update_engineer_pages_chunks roster cfg transcript ttl w) as (chunks & E & F).
  rewrite E. split.
  - assert (G : forall l, Forall2 (person_update cfg transcript ttl) l chunks ->
                (forall e, In e l -> In e roster) ->
                Forall (log_event roster) (concat chunks)).
    { clear F E. intros l F. induction F as [|e c l chunks H _ IH]; intros Hsub.
      - constructor.
      - cbn [concat]. apply Forall_app. split.
        + eapply person_update_events; [|exact H]. apply Hsub. now left.
        + apply IH. intros x Hx. apply Hsub. now right. }
    apply (G _ F). intros e He.
    rewrite <- (firstn_skipn (length chunks) roster). apply in_or_app. now left.
  - exists chunks. split; [reflexivity|].
    eapply Forall2_impl; [|exact F].
    intros entry chunk [(r & _ & ->)|[(r & g & _ & _ & ->)|(r & g & s & _ & _ & ->)]];
      do 2 eexists.
    + left. reflexivity.
    + right. left. eexists. reflexivity.
    + right. right. do 3 eexists. split; reflexivity.
Qed.

(** X13.  A refused page read skips the person after the read: no update is
    written, and the persons before and after are processed as usual. *)
Theorem skipped_when_read_fails cfg transcript ttl before name page_id after w :
  let body := update_engineer_page cfg transcript ttl in
  let o1 := for_each body before w in
  let q := contribution_request name transcript in
  let r := fst (openai_chat q (world o1)) in
  let g := fst (page_get page_id (snd (openai_chat q (world o1)))) in
  let o2 := for_each body after (snd (page_get page_id (snd (openai_chat q (world o1))))) in
  truthy_opt (api_key cfg) = true ->
  no_contribution r = false ->
  get_status g <> 200%Z ->
  update_engineer_pages_of (before ++ (name, page_id) :: after) cfg transcript ttl w =
    (tt, world o2, trace o1 ++ EvChat q r :: EvGet page_id g :: trace o2).
Proof.
  cbv zeta. intros K N G.
  unfold update_engineer_pages_of. rewrite K. cbn [negb].
  destruct (before ++ (name, page_id) :: after) eqn:E.
  { now destruct before. }
  rewrite <- E. rewrite for_each_app, for_each_cons, update_engineer_page_run, N.
  apply Z.eqb_neq in G. rewrite G. reflexivity.
Qed.

End Logs.

Lemma every_person_is_asked_once_witness :
  chat_requests (trace (update_engineer_pages (SV := Demo.services)
                          Demo.cfg "notes" "Retry work" tt))
  = [contribution_request "GUY" "notes"; contribution_request "EYAL" "notes";
     contribution_request "ARVIN" "notes"; contribution_request "MAYA" "notes"].
Proof.
  exact (every_person_is_asked_once (SV := Demo.services)
           ENGINEER_PAGES Demo.cfg "notes" "Retry work" tt eq_refl).
Defined.

Lemma skipped_when_read_fails_witness :
  trace (update_engineer_pages_of (SV := Scenarios.open_root)
           [("EYAL", "491645"); ("MAYA", "557203")] Demo.cfg "notes" "Retry work" tt)
  = [EvChat (contribution_request "EYAL" "notes")
            (mkChatResp 200 "" "<ul><li>Reviewed the retry patch</li></ul>");
     EvGet "491645" (mkGetResp 404 (mkDoc None None None));
     EvChat (contribution_request "MAYA" "notes")
            (mkChatResp 200 "" "<ul><li>Reviewed the retry patch</li></ul>");
     EvGet "557203" (mkGetResp 404 (mkDoc None None None))].
Proof.
  assert (G : get_status (mkGetResp 404 (mkDoc None None None)) <> 200%Z)
    by (vm_compute; discriminate).
  pose proof (skipped_when_read_fails (SV := Scenarios.open_root) Demo.cfg "notes"
                "Retry work" [] "EYAL" "491645" [("MAYA", "557203")] tt
                eq_refl eq_refl G) as H.
  cbn [app] in H. rewrite H. reflexivity.
Defined.

End LogMore.

Module MainSpec.
Import Py Parser PyFacts Remote Fetcher Traces RunFacts Readers Format.
Import ProbeSpec TicketSpec LogSpec.

Lemma lstrip_by_all p s : all_chars p s = true -> lstrip_by p s = EmptyString.
Proof.
  induction s as [|c s IH]; [reflexivity|]. simpl.
  intros H. apply andb_true_iff in H as [Hc Hs]. rewrite Hc. now apply IH.
Qed.

Lemma format_is_truthy cfg ai : truthy (format_transcript_for_confluence cfg ai) = true.
Proof. reflexivity. Qed.

Lemma person_update_no_issue cfg transcript ttl entry chunk :
  person_update cfg transcript ttl entry chunk -> issue_requests chunk = [].
Proof.
  intros [(r & _ & ->)|[(r & g & _ & _ & ->)|(r & g & s & _ & _ & ->)]]; reflexivity.
Qed.

Lemma ticket_attempt_description cfg ttl link it chunk :
  ticket_attempt cfg ttl link it chunk ->
  map issue_description (issue_requests chunk) = [ticket_description ttl (task it) link].
Proof.
  intros [(_ & r & ->)|(name & found & account & r & _ & _ & -> & _)]; reflexivity.
Qed.

Section Main.
Context {W : Type} {SV : Services W}.

Lemma generate_run cfg transcript w :
  let q := mkChat "gpt-4o-mini" system_prompt (user_prompt transcript) in
  let r := fst (openai_chat q w) in
  generate_meeting_summary_with_openai cfg transcript w =
    if truthy_opt (api_key cfg) then
      (if (chat_status r =? 200)%Z then summary_of_content (chat_content r)
       else mkRecord default_title
              ("<p><em>OpenAI summary request failed: " ++ show_Z (chat_status r) ++
               " - " ++ chat_text r ++ "</em></p>")%string [],
       snd (openai_chat q w), [EvChat q r])
    else (placeholder, w, []).
Proof.
  cbv zeta. unfold generate_meeting_summary_with_openai.
  destruct (truthy_opt (api_key cfg)); cbn [negb]; [|reflexivity].
  rewrite mbind_run, call_run. cbn [result world trace fst snd].
  destruct (chat_status (fst (openai_chat _ w)) =? 200)%Z; reflexivity.
Qed.

Lemma generate_no_issue cfg transcript w :
  issue_requests (trace (generate_meeting_summary_with_openai cfg transcript w)) = [].
Proof. rewrite generate_run. now destruct (truthy_opt (api_key cfg)). Qed.

Lemma probe_pages_no_issue space_key pages : forall w,
  issue_requests (trace (probe_pages space_key pages w)) = [].
Proof.
  induction pages as [|page rest IH]; intros w; [reflexivity|].
  rewrite probe_pages_cons.
  destruct (created (create_status (fst (content_create _ w)))); [reflexivity|].
  cbn [trace snd issue_requests]. apply IH.
Qed.

Lemma find_valid_parent_pages_no_issue space_key w :
  issue_requests (trace (find_valid_parent_pages space_key w)) = [].
Proof.
  rewrite find_valid_parent_pages_run.
  destruct (search_status (fst (content_search _ w)) =? 200)%Z; [|reflexivity].
  cbn [trace snd issue_requests]. apply probe_pages_no_issue.
Qed.

Lemma create_confluence_page_no_issue cfg ttl content w :
  issue_requests (trace (create_confluence_page cfg ttl content w)) = [].
Proof.
  rewrite PublishSpec.create_confluence_page_run. cbv zeta.
  destruct (created (create_status (fst (content_create _ w)))); [reflexivity|].
  destruct (result (find_valid_parent_pages _ _)); cbn [trace snd issue_requests].
  - rewrite issue_requests_app, find_valid_parent_pages_no_issue. reflexivity.
  - apply find_valid_parent_pages_no_issue.
Qed.

Lemma update_engineer_pages_no_issue roster cfg transcript ttl w :
  issue_requests (trace (update_engineer_pages_of roster cfg transcript ttl w)) = [].
Proof.
  destruct (update_engineer_pages_chunks roster cfg transcript ttl w) as (chunks & -> & F).
  induction F as [|e c l chunks H _ IH]; [reflexivity|].
  cbn [concat]. rewrite issue_requests_app, IH.
  now rewrite (person_update_no_issue _ _ _ _ _ H).
Qed.

Lemma create_tickets_descriptions cfg ttl link items acc w :
  map issue_description (issue_requests (trace (create_tickets cfg ttl link items acc w))) =
  map (fun it => ticket_description ttl (task it) link) items.
Proof.
  destruct (create_tickets_chunks cfg ttl link items acc w) as (chunks & -> & F).
  induction F as [|it chunk items chunks H _ IH]; [reflexivity|].
  cbn [concat map]. rewrite issue_requests_app, map_app, IH.
  now rewrite (ticket_attempt_description _ _ _ _ _ H).
Qed.

(** [main] as the sequence of its four stages. *)
Lemma main_run cfg file_text w :
  let transcript := strip file_text in
  let gen := generate_meeting_summary_with_openai cfg transcript w in
  let ai := result gen in
  let pub := create_confluence_page cfg (title ai ++ " - " ++ timestamp cfg)%string
               (format_transcript_for_confluence cfg ai) (world gen) in
  let link := match result pub with
              | Some r => (base_url cfg ++ "/wiki" ++ created_webui r)%string
              | None => "N/A"
              end in
  let tk := create_tickets cfg (title ai) link (action_items ai) [] (world pub) in
  let lg := update_engineer_pages cfg transcript (title ai) (world tk) in
  truthy transcript = true ->
  main cfg file_text w = (tt, world lg, trace gen ++ trace pub ++ trace tk ++ trace lg).
Proof.
  cbv zeta. intros T. unfold main. rewrite T. cbn [negb].
  rewrite mbind_run. rewrite format_is_truthy. cbn [negb].
  rewrite mbind_run, mbind_run. cbn [result world trace fst snd].
  f_equal. f_equal.
  now destruct (result (update_engineer_pages cfg (strip file_text) _ _)).
Qed.

(** X14.  A transcript file holding nothing but whitespace ends the run
    before any call is made. *)
Theorem blank_transcript_makes_no_call cfg file_text w :
  all_chars isspace file_text = true ->
  main cfg file_text w = (tt, w, []).
Proof.
  intros H. unfold main, strip. now rewrite (lstrip_by_all _ _ H).
Qed.

(** X15.  Without an API key the run asks the model nothing, publishes the
    placeholder summary, creates no ticket and updates no log. *)
Theorem run_without_key_only_publishes cfg file_text w :
  truthy (strip file_text) = true ->
  truthy_opt (api_key cfg) = false ->
  main cfg file_text w =
    (tt,
     world (create_confluence_page cfg (default_title ++ " - " ++ timestamp cfg)%string
              (format_transcript_for_confluence cfg placeholder) w),
     trace (create_confluence_page cfg (default_title ++ " - " ++ timestamp cfg)%string
              (format_transcript_for_confluence cfg placeholder) w)).
Proof.
  intros T K. rewrite (main_run cfg file_text w T).
  rewrite generate_run, K. cbn [result world trace fst snd app].
  unfold update_engineer_pages, update_engineer_pages_of. rewrite K.
  cbn [ENGINEER_PAGES negb placeholder action_items title create_tickets].
  rewrite !ret_run. cbn [result world trace fst snd]. now rewrite !app_nil_r.
Qed.

(** X16.  The tickets of a run are one per parsed action item, in order, and
    each description reads "Action item from meeting: <title>", a blank
    line, "Task: <task>", a blank line, "Meeting notes: <link>", where the
    link is the base URL followed by /wiki and the published page's webui
    path, or N/A when the publish returned nothing. *)
Theorem run_ticket_descriptions cfg file_text w :
  let transcript := strip file_text in
  let gen := generate_meeting_summary_with_openai cfg transcript w in
  let ai := result gen in
  let pub := create_confluence_page cfg (title ai ++ " - " ++ timestamp cfg)%string
               (format_transcript_for_confluence cfg ai) (world gen) in
  let link := match result pub with
              | Some r => (base_url cfg ++ "/wiki" ++ created_webui r)%string
              | None => "N/A"
              end in
  truthy transcript = true ->
  map issue_description (issue_requests (trace (main cfg file_text w))) =
    map (fun it => ("Action item from meeting: " ++ title ai ++ nl ++ nl ++
                    "Task: " ++ task it ++ nl ++ nl ++
                    "Meeting notes: " ++ link)%string)
        (action_items ai).
Proof.
  cbv zeta. intros T. rewrite (main_run cfg file_text w T).
  cbn [trace snd]. rewrite !issue_requests_app.
  rewrite generate_no_issue, create_confluence_page_no_issue.
  unfold update_engineer_pages. rewrite update_engineer_pages_no_issue.
  rewrite app_nil_r. cbn [app]. exact (create_tickets_descriptions _ _ _ _ _ _).
Qed.

(** X17.  When the summary request is answered with a status other than 200,
    the run creates no ticket at all. *)
Theorem failed_summary_creates_no_ticket cfg file_text w :
  let q := mkChat "gpt-4o-mini" system_prompt (user_prompt (strip file_text)) in
  truthy (strip file_text) = true ->
  truthy_opt (api_key cfg) = true ->
  chat_status (fst (openai_chat q w)) <> 200%Z ->
  issue_requests (trace (main cfg file_text w)) = [].
Proof.
  cbv zeta. intros T K N. rewrite (main_run cfg file_text w T).
  cbn [trace snd]. rewrite !issue_requests_app.
  rewrite generate_no_issue, create_confluence_page_no_issue.
  unfold update_engineer_pages. rewrite update_engineer_pages_no_issue.
  rewrite generate_run, K. apply Z.eqb_neq in N. rewrite N.
  cbn [result fst action_items create_tickets]. reflexivity.
Qed.

End Main.

Lemma blank_transcript_makes_no_call_witness :
  main (SV := Demo.services) Demo.cfg ("  " ++ nl ++ " ") tt = (tt, tt, []).
Proof. apply blank_transcript_makes_no_call. reflexivity. Defined.

Lemma run_without_key_only_publishes_witness :
  chat_requests (trace (main (SV := Demo.services) Scenarios.no_key "notes" tt)) = [] /\
  put_requests (trace (main (SV := Demo.services) Scenarios.no_key "notes" tt)) = [].
Proof.
  rewrite (run_without_key_only_publishes (SV := Demo.services) Scenarios.no_key "notes" tt
             eq_refl eq_refl).
  split; reflexivity.
Defined.

Lemma run_ticket_descriptions_witness :
  map issue_description
      (issue_requests (trace (main (SV := Scenarios.read_only) Demo.cfg "notes" tt))) =
  [("Action item from meeting: Retry work" ++ nl ++ nl ++
    "Task: Write the design note" ++ nl ++ nl ++ "Meeting notes: N/A")%string;
   ("Action item from meeting: Retry work" ++ nl ++ nl ++
    "Task: Fix the retry bug" ++ nl ++ nl ++ "Meeting notes: N/A")%string;
   ("Action item from meeting: Retry work" ++ nl ++ nl ++
    "Task: Archive the old board" ++ nl ++ nl ++ "Meeting notes: N/A")%string].
Proof.
  rewrite (run_ticket_descriptions (SV := Scenarios.read_only) Demo.cfg "notes" tt eq_refl).
  reflexivity.
Defined.

Lemma failed_summary_creates_no_ticket_witness :
  issue_requests (trace (main (SV := Scenarios.model_down) Demo.cfg "notes" tt)) = [].
Proof.
  apply (failed_summary_creates_no_ticket (SV := Scenarios.model_down) Demo.cfg "notes" tt);
    [reflexivity | reflexivity | vm_compute; discriminate].
Defined.

End MainSpec.

Module SiteSpec.
Import Py PyFacts Format StripFacts Site.

Lemma replicate_all c n : all_chars (fun x => mem x (String c "")) (replicate n c) = true.
Proof.
  induction n as [|n IH]; [reflexivity|].
  cbn [replicate all_chars]. rewrite IH. cbn [mem]. now rewrite Ascii.eqb_refl.
Qed.

(** X18.  A configured URL that ends in /wiki, with any number of trailing
    slashes, is reduced to what stands before /wiki. *)
Theorem wiki_suffix_is_cut site n :
  clean_base_url (Some (site ++ "/wiki" ++ replicate n "/")%string) = site.
Proof.
  unfold clean_base_url, rstrip_chars.
  replace (site ++ "/wiki" ++ replicate n "/")%string
    with ((site ++ "/wiki") ++ replicate n "/")%string by now rewrite append_assoc.
  rewrite rstrip_by_app_all by apply replicate_all.
  rewrite rstrip_by_app by discriminate.
  change (rstrip_by (fun c => mem c "/") "/wiki") with "/wiki".
  unfold endswith. rewrite length_append.
  change (String.length "/wiki") with 5.
  replace (String.length site + 5 - 5) with (String.length site) by lia.
  rewrite drop_app, take_app.
  replace (5 <=? String.length site + 5) with true by (symmetry; apply Nat.leb_le; lia).
  reflexivity.
Qed.

End SiteSpec.

Module SummarySpec.
Import Py PyFacts Fetcher.

Lemma length_take_exact n s : n <= String.length s -> String.length (take n s) = n.
Proof.
  revert s; induction n as [|n IH]; intros [|c s] H; simpl in *; try lia.
  rewrite IH; lia.
Qed.

(** X19.  A task of more than 100 characters gives a summary of exactly 100
    characters that starts with the task's first 97; and truncating twice
    changes nothing. *)
Theorem truncation_is_exact_and_idempotent task :
  (100 < String.length task ->
   String.length (ticket_summary task) = 100 /\
   take 97 (ticket_summary task) = take 97 task) /\
  ticket_summary (ticket_summary task) = ticket_summary task.
Proof.
  split.
  - intros H. unfold ticket_summary. apply Nat.ltb_lt in H as H'. rewrite H'.
    assert (L : String.length (take 97 task) = 97) by (apply length_take_exact; lia).
    split.
    + rewrite length_append, L. reflexivity.
    + rewrite <- L at 1. apply StripFacts.take_app.
  - pose proof (TicketSpec.ticket_summary_length task) as L.
    unfold ticket_summary at 1.
    replace (100 <? String.length (ticket_summary task)) with false; [reflexivity|].
    symmetry. apply Nat.ltb_ge. exact L.
Qed.

Lemma truncation_is_exact_and_idempotent_witness :
  String.length (ticket_summary Demo.long_task) = 100.
Proof.
  apply (proj1 (truncation_is_exact_and_idempotent Demo.long_task)).
  vm_compute. lia.
Defined.

End SummarySpec.

Module ZoomSpec.
Import Py Zoom.

Section Download.
Context {W : Type} {Z_api : Api W}.

Lemma scan_skips access_token before : forall rest w,
  Forall (fun f => file_type f <> "TRANSCRIPT"%string) before ->
  scan_recordings access_token (before ++ rest) w = scan_recordings access_token rest w.
Proof.
  induction before as [|f before IH]; intros rest w F; [reflexivity|].
  inversion F as [|? ? Hf Hr]; subst. cbn [app scan_recordings].
  destruct (String.eqb (file_type f) "TRANSCRIPT") eqn:E.
  - apply String.eqb_eq in E. contradiction.
  - now apply IH.
Qed.

(** X20.  The transcript returned is the body of the download of the first
    TRANSCRIPT file, whatever status that download came back with; no other
    file is fetched. *)
Theorem first_transcript_is_downloaded access_token meeting_id w before f after :
  let response := fst (recordings meeting_id access_token w) in
  let w1 := snd (recordings meeting_id access_token w) in
  let url := (download_url f ++ "?access_token=" ++ access_token)%string in
  recordings_status response = 200%Z ->
  recording_files response = before ++ f :: after ->
  Forall (fun x => file_type x <> "TRANSCRIPT"%string) before ->
  file_type f = "TRANSCRIPT"%string ->
  get_meeting_transcript access_token meeting_id w =
    (Some (download_text (fst (download url w1))), snd (download url w1),
     [ZRecordings meeting_id access_token response; ZDownload url (fst (download url w1))]).
Proof.
  cbv zeta. intros S Hf Hb Ht. unfold get_meeting_transcript.
  destruct (recordings meeting_id access_token w) as [response w1].
  cbn [fst snd] in *. rewrite S. cbn [Z.eqb Pos.eqb].
  rewrite Hf, (scan_skips _ _ _ _ Hb). cbn [scan_recordings].
  rewrite Ht. cbn [String.eqb].
  replace (String.eqb "TRANSCRIPT" "TRANSCRIPT") with true by reflexivity.
  now destruct (download _ w1).
Qed.

(** X21.  When the listing fails or lists no TRANSCRIPT file, the result is
    null and nothing is downloaded. *)
Theorem no_transcript_no_download access_token meeting_id w :
  let response := fst (recordings meeting_id access_token w) in
  recordings_status response <> 200%Z \/
  Forall (fun x => file_type x <> "TRANSCRIPT"%string) (recording_files response) ->
  get_meeting_transcript access_token meeting_id w =
    (None, snd (recordings meeting_id access_token w),
     [ZRecordings meeting_id access_token response]).
Proof.
  cbv zeta. intros H. unfold get_meeting_transcript.
  destruct (recordings meeting_id access_token w) as [response w1].
  cbn [fst snd] in *.
  destruct (recordings_status response =? 200)%Z eqn:E.
  - destruct H as [H|H]; [apply Z.eqb_eq in E; contradiction|].
    rewrite <- (app_nil_r (recording_files response)), (scan_skips _ _ _ _ H).
    reflexivity.
  - reflexivity.
Qed.

End Download.

Lemma no_transcript_no_download_witness :
  get_meeting_transcript (Z_api := Scenarios.video_only) "tok" "8675309" tt =
  (None, tt,
   [ZRecordings "8675309" "tok" (mkRecordings 200 [mkFile "MP4" "https://zoom.example/v"])]).
Proof.
  refine (no_transcript_no_download (Z_api := Scenarios.video_only) "tok" "8675309" tt _).
  right. repeat constructor. discriminate.
Defined.

Lemma first_transcript_is_downloaded_witness :
  get_meeting_transcript (Z_api := Scenarios.zoom) "tok" "8675309" tt =
    (Some "<html>Not Found</html>", tt,
     [ZRecordings "8675309" "tok" (mkRecordings 200 Scenarios.files);
      ZDownload "https://zoom.example/t1?access_token=tok"
                (mkDownload 404 "<html>Not Found</html>")]).
Proof.
  apply (first_transcript_is_downloaded (Z_api := Scenarios.zoom) "tok" "8675309" tt
           [mkFile "CHAT" "https://zoom.example/chat"]
           (mkFile "TRANSCRIPT" "https://zoom.example/t1")
           [mkFile "TRANSCRIPT" "https://zoom.example/t2"]);
    [reflexivity | reflexivity | | reflexivity].
  repeat constructor. discriminate.
Defined.

End ZoomSpec.

